(** * lean-cli: the [lean live] command (lean/commands/live.py)

    A shallow embedding of the configuration validation and environment
    building code of [lean/commands/live.py], together with the properties
    that the specification states about it.

    Layout:
    - [Python]: the fragment of Python's data model that the command relies on
      (JSON-like values, exceptions, [in], [obj[key]], [dict.get], truthiness);
    - [Live]: the module-level tables and functions of live.py;
    - [Click]: [LeanCommand.invoke] of lean/click.py and the processing of
      parameters that precedes it, and with them one invocation of the command;
    - the theorems, one group per specification claim. *)

From stdpp Require Import gmap strings list fin_maps.
From Stdlib Require Import ZArith.

#[local] Set Warnings "-register-all".

(* ===================================================================== *)
(** ** Python values, exceptions and the primitives used by live.py       *)
(* ===================================================================== *)

Module Python.

(** What [json] loading and click hand to the command: [None], booleans,
    integers, floats (kept as their IEEE 754 binary64 bit pattern), strings,
    lists and string-keyed dictionaries. *)
Inductive value : Type :=
| VNone
| VBool (b : bool)
| VInt (n : Z)
| VFloat (bits : Z)
| VStr (s : string)
| VList (l : list value)
| VDict (d : gmap string value).

(** The exceptions that can leave the modelled code.  [MissingPropertiesError]
    is the [RuntimeError] of live.py line 106: its text lists the elements of a
    Python [set], whose iteration order is unspecified, so the exception keeps
    the set and [missing_properties_message] renders the text for a given
    iteration order. *)
Inductive exn : Type :=
| KeyError (key : string)
| TypeError
| MoreInfoError (message url : string)
| AttributeError
| RuntimeError (message : string)
| MissingPropertiesError (missing : gset string) (lean_config_path : string).

(** A computation either returns or raises. *)
Inductive result (A : Type) : Type :=
| Ok (a : A)
| Raise (e : exn).
Arguments Ok {A} a.
Arguments Raise {A} e.

#[export] Instance result_ret : MRet result := λ A a, Ok a.
#[export] Instance result_bind : MBind result := λ A B f m,
  match m with
  | Ok a => f a
  | Raise e => Raise e
  end.

(** [for x in xs: body(x)], stopping at the first exception. *)
Fixpoint for_each {A} (body : A → result unit) (xs : list A) : result unit :=
  match xs with
  | [] => Ok tt
  | x :: xs' => body x ≫= λ _, for_each body xs'
  end.

(** [bool(v)] *)
Definition truthy (v : value) : bool :=
  match v with
  | VNone => false
  | VBool b => b
  | VInt n => negb (n =? 0)%Z
  | VFloat bits => negb (Z.land bits (2 ^ 63 - 1) =? 0)%Z
  | VStr s => negb (String.eqb s EmptyString)
  | VList l => match l with [] => false | _ => true end
  | VDict d => negb (bool_decide (d = ∅))
  end.

(** [v == s] for a string [s]: only an equal string compares equal. *)
Definition eq_str (v : value) (s : string) : bool :=
  match v with
  | VStr s' => String.eqb s' s
  | _ => false
  end.

(** [sub in s] for two strings. *)
Definition is_substring (sub s : string) : bool :=
  match String.index 0 sub s with
  | Some _ => true
  | None => false
  end.

(** [key in container] for a string [key]: key test on a dictionary, element
    test on a list, substring test on a string, [TypeError] otherwise. *)
Definition contains (container : value) (key : string) : result bool :=
  match container with
  | VDict d => Ok (bool_decide (is_Some (d !! key)))
  | VList l => Ok (existsb (λ v, eq_str v key) l)
  | VStr s => Ok (is_substring key s)
  | _ => Raise TypeError
  end.

(** [obj[key]] for a string [key]: only a dictionary can be subscripted by a
    string. *)
Definition getitem (obj : value) (key : string) : result value :=
  match obj with
  | VDict d =>
      match d !! key with
      | Some v => Ok v
      | None => Raise (KeyError key)
      end
  | _ => Raise TypeError
  end.

(** [table.get(key, [])] on a dictionary with string keys: lists and
    dictionaries are unhashable, any other non-string is simply not a key. *)
Definition dict_get {A} (table : gmap string (list A)) (key : value) : result (list A) :=
  match key with
  | VStr s => Ok (default [] (table !! s))
  | VList _ | VDict _ => Raise TypeError
  | _ => Ok []
  end.

(** The newline character. *)
Definition newline : string := String (Ascii.ascii_of_nat 10) EmptyString.

(** ["\n".join(lines)] *)
Fixpoint join_lines (lines : list string) : string :=
  match lines with
  | [] => EmptyString
  | [l] => l
  | l :: ls => l +:+ newline +:+ join_lines ls
  end.

End Python.

Import Python.

(* ===================================================================== *)
(** ** lean/commands/live.py                                              *)
(* ===================================================================== *)

Module Live.

(** Brokerage -> required configuration properties *)
Definition _required_brokerage_properties : gmap string (list string) :=
  list_to_map [
    ("InteractiveBrokersBrokerage",
       ["ib-account"; "ib-user-name"; "ib-password"; "ib-agent-description"; "ib-trading-mode"]);
    ("TradierBrokerage", ["tradier-use-sandbox"; "tradier-account-id"; "tradier-access-token"]);
    ("OandaBrokerage", ["oanda-environment"; "oanda-access-token"; "oanda-account-id"]);
    ("GDAXBrokerage", ["gdax-api-secret"; "gdax-api-key"; "gdax-passphrase"]);
    ("BitfinexBrokerage", ["bitfinex-api-secret"; "bitfinex-api-key"]);
    ("BinanceBrokerage", ["binance-api-secret"; "binance-api-key"]);
    ("ZerodhaBrokerage",
       ["zerodha-access-token"; "zerodha-api-key"; "zerodha-product-type"; "zerodha-trading-segment"]);
    ("BloombergBrokerage",
       ["job-organization-id"; "bloomberg-api-type"; "bloomberg-environment";
        "bloomberg-server-host"; "bloomberg-server-port"; "bloomberg-emsx-broker"])
  ].

(** Data queue handler -> required configuration properties *)
Definition _required_data_queue_handler_properties : gmap string (list string) :=
  list_to_map [
    ("QuantConnect.Brokerages.InteractiveBrokers.InteractiveBrokersBrokerage",
       (_required_brokerage_properties !!! "InteractiveBrokersBrokerage")
         ++ ["ib-enable-delayed-streaming-data"]);
    ("TradierBrokerage", _required_brokerage_properties !!! "TradierBrokerage");
    ("OandaBrokerage", _required_brokerage_properties !!! "OandaBrokerage");
    ("GDAXDataQueueHandler", _required_brokerage_properties !!! "GDAXBrokerage");
    ("BitfinexBrokerage", _required_brokerage_properties !!! "BitfinexBrokerage");
    ("BinanceBrokerage", _required_brokerage_properties !!! "BinanceBrokerage");
    ("ZerodhaBrokerage",
       (_required_brokerage_properties !!! "ZerodhaBrokerage") ++ ["zerodha-history-subscription"]);
    ("BloombergBrokerage", _required_brokerage_properties !!! "BloombergBrokerage");
    ("QuantConnect.ToolBox.IQFeed.IQFeedDataQueueHandler",
       ["iqfeed-iqconnect"; "iqfeed-productName"; "iqfeed-version"])
  ].

(** The dictionary that [_environment_skeleton] is bound to when the module is
    imported.  The object is shared afterwards (see [world]). *)
Definition environment_skeleton_at_import : gmap string value :=
  list_to_map [
    ("live-mode", VBool true);
    ("setup-handler", VStr "QuantConnect.Lean.Engine.Setup.BrokerageSetupHandler");
    ("result-handler", VStr "QuantConnect.Lean.Engine.Results.LiveTradingResultHandler");
    ("data-feed-handler", VStr "QuantConnect.Lean.Engine.DataFeeds.LiveTradingDataFeed");
    ("real-time-handler", VStr "QuantConnect.Lean.Engine.RealTime.LiveTradingRealTimeHandler")
  ].

Definition docs_url : string :=
  "https://www.lean.io/docs/lean-cli/tutorials/live-trading/local-live-trading".

(** The three [MoreInfoError]s of the command, under the names the
    specification gives them. *)
Definition EnvironmentUndeclared (lean_config_path environment_name : string) : exn :=
  MoreInfoError
    (lean_config_path +:+ " does not contain an environment named '" +:+ environment_name +:+ "'")
    docs_url.

Definition NotLiveEnvironment (environment_name : string) : exn :=
  MoreInfoError
    ("The '" +:+ environment_name
       +:+ "' is not a live trading environment (live-mode is set to false)")
    docs_url.

Definition MissingRequiredKey (environment_name key : string) : exn :=
  MoreInfoError
    ("The '" +:+ environment_name +:+ "' environment does not specify a " +:+ key)
    docs_url.

(** The text of the [RuntimeError] of line 106 when the set of missing
    properties is iterated in the order [missing_properties]. *)
Definition missing_properties_message (missing_properties : list string)
    (lean_config_path : string) : string :=
  let properties_str := if bool_decide (1 < length missing_properties) then "properties" else "property" in
  let these_str := if bool_decide (1 < length missing_properties) then "these" else "this" in
  "Please configure the following missing " +:+ properties_str +:+ " in "
    +:+ lean_config_path +:+ ":" +:+ newline
    +:+ join_lines ((λ p, "- " +:+ p) <$> missing_properties) +:+ newline
    +:+ "Go to the following url for documentation on " +:+ these_str +:+ " "
    +:+ properties_str +:+ ":" +:+ newline
    +:+ docs_url.

(** [p not in lean_config or lean_config[p] == ""] *)
Definition property_missing (lean_config : gmap string value) (p : string) : bool :=
  match lean_config !! p with
  | None => true
  | Some v => eq_str v EmptyString
  end.

(** Lines 95-97: the required properties that are missing, as a set. *)
Definition missing_properties (lean_config : gmap string value)
    (required_properties : list string) : gset string :=
  list_to_set (List.filter (property_missing lean_config) required_properties).

Section Validator.
(** The two requirement tables the validator reads. *)
Variable brokerage_table : gmap string (list string).
Variable data_queue_handler_table : gmap string (list string).

(** The body of [_raise_for_missing_properties], over the tables it reads. *)
Definition raise_for_missing_properties_with (lean_config : gmap string value)
      (environment_name lean_config_path : string) : result unit :=
    environments ← getitem (VDict lean_config) "environments";
    environment ← getitem environments environment_name;
    _ ← for_each (λ key,
           present ← contains environment key;
           if negb present then Raise (MissingRequiredKey environment_name key) else Ok tt)
         ["live-mode-brokerage"; "data-queue-handler"];
    brokerage ← getitem environment "live-mode-brokerage";
    data_queue_handler ← getitem environment "data-queue-handler";
    brokerage_properties ← dict_get brokerage_table brokerage;
    data_queue_handler_properties ← dict_get data_queue_handler_table data_queue_handler;
    let required_properties := brokerage_properties ++ data_queue_handler_properties in
    let missing := missing_properties lean_config required_properties in
    if bool_decide (size missing = 0) then Ok tt
    else Raise (MissingPropertiesError missing lean_config_path).
End Validator.

(** Raises an error if any required properties are missing. *)
Definition _raise_for_missing_properties : gmap string value → string → string → result unit :=
  raise_for_missing_properties_with
    _required_brokerage_properties _required_data_queue_handler_properties.

(** The lookups of lines 92-93 on identifiers, as the specification names
    them. *)
Definition brokerage_requirements (id : string) : list string :=
  default [] (_required_brokerage_properties !! id).

Definition data_queue_handler_requirements (id : string) : list string :=
  default [] (_required_data_queue_handler_properties !! id).

(** Lines 627-636 of [live]: the checks made on the complete configuration
    before the engine is started. *)
Definition live_checks (lean_config : gmap string value)
    (environment_name lean_config_path : string) : result unit :=
  undeclared ←
    (if negb (bool_decide (is_Some (lean_config !! "environments"))) then Ok true
     else
       environments ← getitem (VDict lean_config) "environments";
       declared ← contains environments environment_name;
       Ok (negb declared));
  if (undeclared : bool) then Raise (EnvironmentUndeclared lean_config_path environment_name)
  else
    environments ← getitem (VDict lean_config) "environments";
    environment ← getitem environments environment_name;
    live_mode ← getitem environment "live-mode";
    if negb (truthy live_mode) then Raise (NotLiveEnvironment environment_name)
    else _raise_for_missing_properties lean_config environment_name lean_config_path.

(** *** Module-level state *)

(** [QCMinimalOrganization]: what [_get_organization_id] reads of it. *)
Record organization := { org_id : string; org_name : string }.

(** The mutable module-level objects of live.py, and a count of the calls
    made so far to [api_client.organizations.get_all()].  The dictionary bound
    to [_environment_skeleton] is an object like any other: [live] stores it,
    uncopied, in the configuration it builds, and whoever writes to that
    environment writes to this dictionary. *)
Record world := {
  _environment_skeleton : gmap string value;
  _cached_organizations : option (list organization);
  _cached_lean_config : option (gmap string value);
  get_all_calls : nat
}.

Definition world_at_import : world :=
  {| _environment_skeleton := environment_skeleton_at_import;
     _cached_organizations := None;
     _cached_lean_config := None;
     get_all_calls := 0 |}.

Definition set_environment_skeleton (d : gmap string value) (w : world) : world :=
  {| _environment_skeleton := d;
     _cached_organizations := _cached_organizations w;
     _cached_lean_config := _cached_lean_config w;
     get_all_calls := get_all_calls w |}.

Definition set_cached_organizations (o : option (list organization)) (w : world) : world :=
  {| _environment_skeleton := _environment_skeleton w;
     _cached_organizations := o;
     _cached_lean_config := _cached_lean_config w;
     get_all_calls := get_all_calls w |}.

Definition set_cached_lean_config (c : option (gmap string value)) (w : world) : world :=
  {| _environment_skeleton := _environment_skeleton w;
     _cached_organizations := _cached_organizations w;
     _cached_lean_config := c;
     get_all_calls := get_all_calls w |}.

Definition count_get_all (w : world) : world :=
  {| _environment_skeleton := _environment_skeleton w;
     _cached_organizations := _cached_organizations w;
     _cached_lean_config := _cached_lean_config w;
     get_all_calls := S (get_all_calls w) |}.

(** A command step: it returns or raises, and leaves a world behind either
    way (what was written before an exception stays written). *)
Definition M (A : Type) : Type := world → result A * world.

#[export] Instance M_ret : MRet M := λ A a w, (Ok a, w).
#[export] Instance M_bind : MBind M := λ A B f m w,
  match m w with
  | (Ok a, w') => f a w'
  | (Raise e, w') => (Raise e, w')
  end.

(** A step that does not touch the world. *)
Definition lift {A} (r : result A) : M A := λ w, (r, w).

(** *** Collaborators

    What [live] obtains from [lean.container.container]; their code is outside
    this file and they are taken as given. *)
Record container := {
  (** [api_client().organizations.get_all()], as answered at the call made
      after [n] earlier ones *)
  organizations_get_all : nat → result (list organization);
  (** [lean_config_manager().get_lean_config()] *)
  get_lean_config : result (gmap string value);
  (** [lean_config_manager().get_complete_lean_config(environment_name, algorithm_file, None)] *)
  get_complete_lean_config : string → string → result (gmap string value);
  (** [lean_config_manager().get_lean_config_path()] *)
  get_lean_config_path : string;
  (** [project_manager().find_algorithm_file(Path(project))] *)
  find_algorithm_file : string → result string;
  (** [Path(value).is_file()] *)
  is_file : string → bool;
  (** lines 638-653: engine image, Docker, IQConnect and
      [lean_runner().run_lean], given [ctx.params], the configuration, the
      environment name and the algorithm file *)
  run_lean : gmap string value → gmap string value → string → string → result unit
}.

(** *** Organizations and option defaults *)

(** Converts the organization name or id given by the user to an organization
    id.  [given_input] is the [Optional[str]] option value. *)
Definition _get_organization_id (c : container) (given_input : option string) : M string := λ w,
  let fetched :=
    match _cached_organizations w with
    | Some organizations => (Ok organizations, w)
    | None =>
        match organizations_get_all c (get_all_calls w) with
        | Ok organizations =>
            (Ok organizations, set_cached_organizations (Some organizations) (count_get_all w))
        | Raise e => (Raise e, count_get_all w)
        end
    end in
  match fetched with
  | (Raise e, w') => (Raise e, w')
  | (Ok organizations, w') =>
      match List.find (λ o, bool_decide (Some (org_id o) = given_input)
                            || bool_decide (Some (org_name o) = given_input)) organizations with
      | Some organization => (Ok (org_id organization), w')
      | None =>
          (Raise (RuntimeError ("You are not a member of an organization with name or id '"
                                  +:+ default "None" given_input +:+ "'")), w')
      end
  end.

(** Returns the default value for an option based on the Lean config. *)
Definition _get_default_value (c : container) (key : string) : M value := λ w,
  let loaded :=
    match _cached_lean_config w with
    | Some lean_config => (Ok lean_config, w)
    | None =>
        match get_lean_config c with
        | Ok lean_config => (Ok lean_config, set_cached_lean_config (Some lean_config) w)
        | Raise e => (Raise e, w)
        end
    end in
  match loaded with
  | (Raise e, w') => (Raise e, w')
  | (Ok lean_config, w') =>
      match lean_config !! key with
      | None => (Ok VNone, w')
      | Some v =>
          if eq_str v EmptyString then (Ok VNone, w')
          else if String.eqb key "iqfeed-iqconnect" then
            match v with
            | VStr path => (Ok (if is_file c path then v else VNone), w')
            | _ => (Raise TypeError, w')
            end
          else (Ok v, w')
      end
  end.

(** *** Building the environment *)

(** Modelled from the spec: the brokerage and data feed classes of
    [lean.models.brokerages.local] are not among the available sources.  The
    specification describes an instance by the identifier it declares in the
    environment and by the entries it stores at the root of the configuration
    (its credentials). *)
Record configurer := {
  identifier : string;
  properties : gmap string value
}.

(** [lean_config["environments"][environment_name][key] = v].  [shared] tells
    whether the environment dictionary reached this way is the object bound to
    [_environment_skeleton]; if so the global shows the write as well. *)
Definition set_environment_item (shared : bool) (lean_config : gmap string value)
    (environment_name key : string) (v : value) : M (gmap string value) := λ w,
  match getitem (VDict lean_config) "environments" ≫= λ environments,
        getitem environments environment_name ≫= λ environment,
        Ok (environments, environment) with
  | Ok (VDict environments, VDict environment) =>
      let environment' := <[key := v]> environment in
      (Ok (<["environments" := VDict (<[environment_name := VDict environment']> environments)]>
             lean_config),
       if shared then set_environment_skeleton environment' w else w)
  | Ok _ => (Raise TypeError, w)
  | Raise e => (Raise e, w)
  end.

(** Modelled from the spec: [configurer.configure(lean_config, environment_name)],
    which is not among the available sources.  Section 4.2: "Apply
    brokerage_config entries as top-level keys on base [...] and set
    base.environments[environment_name]["live-mode-brokerage"] to the
    brokerage's canonical identifier. Apply data_feed_config entries the same
    way, setting data-queue-handler to the feed's canonical identifier."
    [identifier_key] is "live-mode-brokerage" for a brokerage and
    "data-queue-handler" for a data feed.  An entry stored under
    "environments" replaces the environments object, which from then on is
    not the shared skeleton any more. *)
Definition configure (identifier_key : string) (c : configurer)
    (shared : bool) (lean_config : gmap string value) (environment_name : string)
    : M (bool * gmap string value) :=
  let lean_config1 := properties c ∪ lean_config in
  let shared1 := shared && bool_decide (properties c !! "environments" = None) in
  lean_config2 ← set_environment_item shared1 lean_config1 environment_name
                   identifier_key (VStr (identifier c));
  mret (shared1, lean_config2).

(** Lines 616-618 (and 152-154):
    [lean_config["environments"] = { environment_name: _environment_skeleton }] *)
Definition environments_from_skeleton (lean_config : gmap string value)
    (environment_name : string) : M (gmap string value) := λ w,
  (Ok (<["environments" := VDict {[ environment_name := VDict (_environment_skeleton w) ]}]>
         lean_config), w).

(** Lines 616-621: the environment is built from the skeleton and both
    configurers. *)
Definition build_environment (lean_config : gmap string value) (environment_name : string)
    (brokerage_configurer data_feed_configurer : configurer) : M (gmap string value) :=
  lean_config0 ← environments_from_skeleton lean_config environment_name;
  '(shared, lean_config1) ← configure "live-mode-brokerage" brokerage_configurer
                               true lean_config0 environment_name;
  '(_, lean_config2) ← configure "data-queue-handler" data_feed_configurer
                          shared lean_config1 environment_name;
  mret lean_config2.

(** *** The command *)

(** The brokerage and data feed classes that [live] chooses from, in the
    order of its [if]/[elif] chains. *)
Inductive brokerage_class : Type :=
| PaperTradingBrokerage
| InteractiveBrokersBrokerage
| TradierBrokerage
| OANDABrokerage
| BitfinexBrokerage
| CoinbaseProBrokerage
| BinanceBrokerage
| ZerodhaBrokerage
| BloombergBrokerage.

Inductive data_feed_class : Type :=
| InteractiveBrokersDataFeed
| TradierDataFeed
| OANDADataFeed
| BitfinexDataFeed
| CoinbaseProDataFeed
| BinanceDataFeed
| ZerodhaDataFeed
| BloombergDataFeed
| IQFeedDataFeed.

Definition brokerage_classes : list brokerage_class :=
  [PaperTradingBrokerage; InteractiveBrokersBrokerage; TradierBrokerage; OANDABrokerage;
   BitfinexBrokerage; CoinbaseProBrokerage; BinanceBrokerage; ZerodhaBrokerage;
   BloombergBrokerage].

Definition data_feed_classes : list data_feed_class :=
  [InteractiveBrokersDataFeed; TradierDataFeed; OANDADataFeed; BitfinexDataFeed;
   CoinbaseProDataFeed; BinanceDataFeed; ZerodhaDataFeed; BloombergDataFeed; IQFeedDataFeed].

(** The options that [live] insists on before it instantiates a class. *)
Definition bloomberg_options : list string :=
  ["bloomberg_organization"; "bloomberg_environment"; "bloomberg_server_host";
   "bloomberg_server_port"; "bloomberg_emsx_broker"; "bloomberg_execution";
   "bloomberg_allow_modification"].

Definition brokerage_options (cls : brokerage_class) : list string :=
  match cls with
  | PaperTradingBrokerage => []
  | InteractiveBrokersBrokerage => ["ib_user_name"; "ib_account"; "ib_password"]
  | TradierBrokerage => ["tradier_account_id"; "tradier_access_token"; "tradier_use_sandbox"]
  | OANDABrokerage => ["oanda_account_id"; "oanda_access_token"; "oanda_environment"]
  | BitfinexBrokerage => ["bitfinex_api_key"; "bitfinex_api_secret"]
  | CoinbaseProBrokerage => ["gdax_api_key"; "gdax_api_secret"; "gdax_passphrase"]
  | BinanceBrokerage => ["binance_api_key"; "binance_api_secret"]
  | ZerodhaBrokerage =>
      ["zerodha_api_key"; "zerodha_access_token"; "zerodha_product_type"; "zerodha_trading_segment"]
  | BloombergBrokerage => bloomberg_options
  end.

Definition data_feed_options (cls : data_feed_class) : list string :=
  match cls with
  | InteractiveBrokersDataFeed =>
      ["ib_user_name"; "ib_account"; "ib_password"; "ib_enable_delayed_streaming_data"]
  | TradierDataFeed => ["tradier_account_id"; "tradier_access_token"; "tradier_use_sandbox"]
  | OANDADataFeed => ["oanda_account_id"; "oanda_access_token"; "oanda_environment"]
  | BitfinexDataFeed => ["bitfinex_api_key"; "bitfinex_api_secret"]
  | CoinbaseProDataFeed => ["gdax_api_key"; "gdax_api_secret"; "gdax_passphrase"]
  | BinanceDataFeed => ["binance_api_key"; "binance_api_secret"]
  | ZerodhaDataFeed =>
      ["zerodha_api_key"; "zerodha_access_token"; "zerodha_product_type"; "zerodha_trading_segment";
       "zerodha_history_subscription"]
  | BloombergDataFeed => bloomberg_options
  | IQFeedDataFeed =>
      ["iqfeed_iqconnect"; "iqfeed_username"; "iqfeed_password"; "iqfeed_product_name";
       "iqfeed_version"]
  end.

(** What [live] uses of [lean.models.brokerages.local], of
    [lean.click.ensure_options] and of the interactive logger; their code is
    outside this file and they are taken as given.  A class is instantiated
    from the option values in [ctx.params] and, for Bloomberg, from the
    organization id that [_get_organization_id] returned. *)
Record local_brokerages := {
  brokerage_get_name : brokerage_class → string;
  data_feed_get_name : data_feed_class → string;
  ensure_options : gmap string value → list string → result unit;
  new_brokerage : brokerage_class → gmap string value → option string → configurer;
  new_data_feed : data_feed_class → gmap string value → option string → configurer;
  (** [logger.prompt_list("Select a brokerage", ...).build(lean_config, logger)] *)
  prompt_brokerage : gmap string value → result configurer;
  (** [logger.prompt_list("Select a data feed", ...).build(lean_config, logger)],
      among the data feeds of the brokerage chosen before *)
  prompt_data_feed : configurer → gmap string value → result configurer
}.

(** The arguments click passes to [live] that the modelled part reads, and
    [ctx.params], which holds every option by name. *)
Record live_args := {
  params : gmap string value;
  project : string;
  environment : option string;
  brokerage : option string;
  data_feed : option string;
  bloomberg_organization : option string
}.

(** An [if name == A.get_name(): ... elif name == B.get_name(): ...] chain:
    the first class whose name is [name], if any. *)
Definition select_class {A} (get_name : A → string) (classes : list A)
    (name : option string) : option A :=
  List.find (λ cls, bool_decide (name = Some (get_name cls))) classes.

(** Lines 491-540: one branch of the brokerage chain. *)
Definition make_brokerage_configurer (c : container) (lib : local_brokerages)
    (args : live_args) (cls : brokerage_class) : M configurer :=
  match cls with
  | PaperTradingBrokerage => mret (new_brokerage lib cls (params args) None)
  | BloombergBrokerage =>
      _ ← lift (ensure_options lib (params args) (brokerage_options cls));
      organization_id ← _get_organization_id c (bloomberg_organization args);
      mret (new_brokerage lib cls (params args) (Some organization_id))
  | _ =>
      _ ← lift (ensure_options lib (params args) (brokerage_options cls));
      mret (new_brokerage lib cls (params args) None)
  end.

(** Lines 542-611: one branch of the data feed chain. *)
Definition make_data_feed_configurer (c : container) (lib : local_brokerages)
    (args : live_args) (cls : data_feed_class) : M configurer :=
  match cls with
  | BloombergDataFeed =>
      _ ← lift (ensure_options lib (params args) (data_feed_options cls));
      organization_id ← _get_organization_id c (bloomberg_organization args);
      mret (new_data_feed lib cls (params args) (Some organization_id))
  | _ =>
      _ ← lift (ensure_options lib (params args) (data_feed_options cls));
      mret (new_data_feed lib cls (params args) None)
  end.

(** Interactively configures the Lean config to use. *)
Definition _configure_lean_config_interactively (lib : local_brokerages)
    (lean_config : gmap string value) (environment_name : string) : M (gmap string value) :=
  lean_config0 ← environments_from_skeleton lean_config environment_name;
  brokerage ← lift (prompt_brokerage lib lean_config0);
  '(shared, lean_config1) ← configure "live-mode-brokerage" brokerage
                               true lean_config0 environment_name;
  data_feed ← lift (prompt_data_feed lib brokerage lean_config1);
  '(_, lean_config2) ← configure "data-queue-handler" data_feed
                          shared lean_config1 environment_name;
  mret lean_config2.

(** Lines 468-472: "Reset globals so we reload everything in between tests" *)
Definition reset_globals : M unit := λ w,
  (Ok tt, set_cached_lean_config None (set_cached_organizations None w)).

(** Lines 474-653 of [live]: what the command does once the globals are
    reset. *)
Definition live_body (c : container) (lib : local_brokerages) (args : live_args) : M unit :=
  algorithm_file ← lift (find_algorithm_file c (project args));
  '(environment_name, lean_config) ←
    match environment args with
    | Some environment_name =>
        lean_config ← lift (get_complete_lean_config c environment_name algorithm_file);
        mret (environment_name, lean_config)
    | None =>
        if bool_decide (is_Some (brokerage args)) || bool_decide (is_Some (data_feed args)) then
          _ ← lift (ensure_options lib (params args) ["brokerage"; "data_feed"]);
          brokerage_configurer ←
            match select_class (brokerage_get_name lib) brokerage_classes (brokerage args) with
            | Some cls => b ← make_brokerage_configurer c lib args cls; mret (Some b)
            | None => mret None
            end;
          data_feed_configurer ←
            match select_class (data_feed_get_name lib) data_feed_classes (data_feed args) with
            | Some cls => d ← make_data_feed_configurer c lib args cls; mret (Some d)
            | None => mret None
            end;
          lean_config ← lift (get_complete_lean_config c "lean-cli" algorithm_file);
          lean_config' ←
            match brokerage_configurer, data_feed_configurer with
            | Some b, Some d => build_environment lean_config "lean-cli" b d
            | Some b, None =>
                lean_config0 ← environments_from_skeleton lean_config "lean-cli";
                _ ← configure "live-mode-brokerage" b true lean_config0 "lean-cli";
                lift (Raise AttributeError)
            | None, _ => lift (Raise AttributeError)
            end;
          mret ("lean-cli", lean_config')
        else
          lean_config ← lift (get_complete_lean_config c "lean-cli" algorithm_file);
          lean_config' ← _configure_lean_config_interactively lib lean_config "lean-cli";
          mret ("lean-cli", lean_config')
    end;
  _ ← lift (live_checks lean_config environment_name (get_lean_config_path c));
  lift (run_lean c (params args) lean_config environment_name algorithm_file).

(** Start live trading a project locally using Docker.  This is the function
    [live] of lines 400-653, the callback of the command: click calls it with
    [ctx.params] once the parameters are processed (see [invocation]). *)
Definition live (c : container) (lib : local_brokerages) (args : live_args) : M unit :=
  _ ← reset_globals;
  live_body c lib args.

(** [_get_organization_id(x1); _get_organization_id(x2); ...]: any number of
    resolutions in a row, as long as none raises. *)
Fixpoint get_organization_ids (c : container) (inputs : list (option string))
    : M (list string) :=
  match inputs with
  | [] => mret []
  | given_input :: inputs' =>
      organization_id ← _get_organization_id c given_input;
      organization_ids ← get_organization_ids c inputs';
      mret (organization_id :: organization_ids)
  end.

End Live.

Import Live.

(* ===================================================================== *)
(** ** lean/click.py: how a command is invoked                            *)
(* ===================================================================== *)

Module Click.

(** [LeanCommand.__init__]: the two flags that [invoke] reads. *)
Record LeanCommand := {
  _requires_lean_config : bool;
  _requires_docker : bool
}.

(** What [LeanCommand.invoke] asks of the process it runs in and of
    [lean.container.container]; taken as given. *)
Record host := {
  (** [lean_config_manager().get_cli_root_directory()] *)
  get_cli_root_directory : result string;
  (** ["pytest" in sys.modules] *)
  pytest_loaded : bool;
  (** [platform.system()] *)
  platform_system : string;
  (** [shutil.which("docker")] *)
  docker_path : option string;
  (** [os.getuid()] *)
  getuid : Z;
  (** [docker_manager().is_missing_permission()] *)
  is_missing_permission : bool;
  (** [sys.executable] and [sys.argv] *)
  executable : string;
  argv : list string;
  (** [update_manager().show_announcements()] *)
  show_announcements : result unit;
  (** [update_manager().warn_if_cli_outdated()] *)
  warn_if_cli_outdated : result unit
}.

(** How an invocation of a command ends: the callback returned, an exception
    left the invocation, click refused the value of a parameter
    ([BadParameter], a usage error), or [os.execlp] replaced the process. *)
Inductive outcome : Type :=
| Returned
| Raised (e : exn)
| UsageError (param : string) (v : value)
| ProcessReplaced (args : list string).

(** Lines 56-58 and 67-69 of click.py. *)
Definition requires_lean_config_error : exn :=
  MoreInfoError
    "This command requires a Lean configuration file, run `lean init` in an empty directory to create one, or specify the file to use with --lean-config"
    "https://www.lean.io/docs/lean-cli/user-guides/troubleshooting#02-Common-errors".

Definition snap_docker_error : exn :=
  MoreInfoError
    "The Lean CLI does not work with the Snap version of Docker, please re-install Docker via the official installation instructions"
    "https://docs.docker.com/engine/install/".

(** Lines 80-87: the announcements, the command itself ([super().invoke(ctx)]
    calls the callback with [ctx.params]) and the version check. *)
Definition run_callback (h : host) (callback : M unit) : world → outcome * world := λ w,
  match show_announcements h with
  | Raise e => (Raised e, w)
  | Ok _ =>
      match callback w with
      | (Raise e, w') => (Raised e, w')
      | (Ok _, w') =>
          match warn_if_cli_outdated h with
          | Raise e => (Raised e, w')
          | Ok _ => (Returned, w')
          end
      end
  end.

(** [LeanCommand.invoke], lines 49-87.  The message logged before [os.execlp]
    is output only and is left out. *)
Definition invoke (self : LeanCommand) (h : host) (callback : M unit)
    : world → outcome * world := λ w,
  if _requires_lean_config self
     && match get_cli_root_directory h with Ok _ => false | Raise _ => true end
  then (Raised requires_lean_config_error, w)
  else if _requires_docker self && negb (pytest_loaded h) then
    if String.eqb (platform_system h) "Linux"
       && match docker_path h with
          | Some path => String.prefix "/snap" path
          | None => false
          end
    then (Raised snap_docker_error, w)
    else if String.eqb (platform_system h) "Linux"
            && negb (getuid h =? 0)%Z
            && is_missing_permission h
    then (ProcessReplaced ("sudo" :: "--preserve-env=HOME" :: executable h :: argv h), w)
    else run_callback h callback w
  else run_callback h callback w.

(** *** Parameters and their defaults

    The parameters of a command are declared by decorators; a declaration
    gives the name under which the value is stored in [ctx.params] and, for
    an option, what it is when the command line does not give it: nothing
    (click's [None]), a constant, or a function that click calls. *)
Inductive default_source : Type :=
| NoDefault
| Constant (v : value)
| Callable (f : M value).

Record parameter := {
  param_name : string;
  param_default : default_source
}.

(** Click's own part in the processing of a command line, taken as given:
    the parameters in the order in which click processes them, each with the
    value that the command line gives for it, if any, and the conversion of a
    value (given or default) to the type that the parameter declares, which
    refuses a value with [BadParameter]. *)
Record command_line := {
  processed : list (parameter * option value);
  convert : string → value → option value
}.

(** What the processing of the parameters comes to: [ctx.params], a refused
    value, or an exception raised by a default. *)
Inductive parsed : Type :=
| Parsed (params : gmap string value)
| BadParameter (param : string) (v : value)
| DefaultRaised (e : exn).

(** The value of each parameter in turn: the value given, or else the
    default, calling it when it is a function; then its conversion.  The
    first failure ends the processing. *)
Fixpoint process_params (convert : string → value → option value)
    (ps : list (parameter * option value)) (params : gmap string value)
    : world → parsed * world := λ w,
  match ps with
  | [] => (Parsed params, w)
  | (p, given) :: ps' =>
      let '(r, w') :=
        match given with
        | Some v => (Ok v, w)
        | None =>
            match param_default p with
            | NoDefault => (Ok VNone, w)
            | Constant v => (Ok v, w)
            | Callable f => f w
            end
        end in
      match r with
      | Raise e => (DefaultRaised e, w')
      | Ok v =>
          match convert (param_name p) v with
          | None => (BadParameter (param_name p) v, w')
          | Some v' => process_params convert ps' (<[param_name p := v']> params) w'
          end
      end
  end.

Definition parse_args (cl : command_line) : world → parsed * world :=
  process_params (convert cl) (processed cl) ∅.

(** One invocation of a command: click processes the parameters, which
    evaluates the defaults, and then calls [invoke], which calls the
    callback with [ctx.params]. *)
Definition main (self : LeanCommand) (h : host) (cl : command_line)
    (callback : gmap string value → M unit) : world → outcome * world := λ w,
  match parse_args cl w with
  | (Parsed params, w') => invoke self h (callback params) w'
  | (BadParameter param v, w') => (UsageError param v, w')
  | (DefaultRaised e, w') => (Raised e, w')
  end.

End Click.

(* ===================================================================== *)
(** ** The declaration of [lean live] and its invocation                  *)
(* ===================================================================== *)

(** Line 218: [@click.command(cls=LeanCommand, requires_lean_config=True,
    requires_docker=True)] *)
Definition live_command : Click.LeanCommand :=
  {| Click._requires_lean_config := true; Click._requires_docker := true |}.

(** An option declared with [default=lambda: _get_default_value(key)]. *)
Definition from_lean_config (c : container) (name key : string) : Click.parameter :=
  {| Click.param_name := name;
     Click.param_default := Click.Callable (_get_default_value c key) |}.

(** Lines 219-397: the parameters of [live], in the order of their
    declarations.  [LeanCommand.get_params] adds [--lean-config] and
    [--verbose]; they are not exposed in [ctx.params], their callbacks act on
    the container, and they are not listed. *)
Definition live_params (c : container) : list Click.parameter :=
  [
    {| Click.param_name := "project"; Click.param_default := Click.NoDefault |};
    {| Click.param_name := "environment"; Click.param_default := Click.NoDefault |};
    {| Click.param_name := "output"; Click.param_default := Click.NoDefault |};
    {| Click.param_name := "brokerage"; Click.param_default := Click.NoDefault |};
    {| Click.param_name := "data_feed"; Click.param_default := Click.NoDefault |};
    from_lean_config c "ib_user_name" "ib-user-name";
    from_lean_config c "ib_account" "ib-account";
    from_lean_config c "ib_password" "ib-password";
    from_lean_config c "ib_enable_delayed_streaming_data" "ib-enable-delayed-streaming-data";
    from_lean_config c "tradier_account_id" "tradier-account-id";
    from_lean_config c "tradier_access_token" "tradier-access-token";
    from_lean_config c "tradier_use_sandbox" "tradier-use-sandbox";
    from_lean_config c "oanda_account_id" "oanda-account-id";
    from_lean_config c "oanda_access_token" "oanda-access-token";
    from_lean_config c "oanda_environment" "oanda-environment";
    from_lean_config c "bitfinex_api_key" "bitfinex-api-key";
    from_lean_config c "bitfinex_api_secret" "bitfinex-api-secret";
    from_lean_config c "gdax_api_key" "gdax-api-key";
    from_lean_config c "gdax_api_secret" "gdax-api-secret";
    from_lean_config c "gdax_passphrase" "gdax-passphrase";
    from_lean_config c "binance_api_key" "binance-api-key";
    from_lean_config c "binance_api_secret" "binance-api-secret";
    from_lean_config c "zerodha_api_key" "zerodha-api-key";
    from_lean_config c "zerodha_access_token" "zerodha-access-token";
    from_lean_config c "zerodha_product_type" "zerodha-product-type";
    from_lean_config c "zerodha_trading_segment" "zerodha-trading-segment";
    from_lean_config c "zerodha_history_subscription" "zerodha-history-subscription";
    from_lean_config c "iqfeed_iqconnect" "iqfeed-iqconnect";
    from_lean_config c "iqfeed_username" "iqfeed-username";
    from_lean_config c "iqfeed_password" "iqfeed-password";
    from_lean_config c "iqfeed_product_name" "iqfeed-productName";
    from_lean_config c "iqfeed_version" "iqfeed-version";
    from_lean_config c "bloomberg_organization" "job-organization-id";
    from_lean_config c "bloomberg_environment" "bloomberg-environment";
    from_lean_config c "bloomberg_server_host" "bloomberg-server-host";
    from_lean_config c "bloomberg_server_port" "bloomberg-server-port";
    from_lean_config c "bloomberg_symbol_map_file" "bloomberg-symbol-map-file";
    from_lean_config c "bloomberg_emsx_broker" "bloomberg-emsx-broker";
    from_lean_config c "bloomberg_emsx_user_time_zone" "bloomberg-emsx-user-time-zone";
    from_lean_config c "bloomberg_emsx_account" "bloomberg-emsx-account";
    from_lean_config c "bloomberg_emsx_strategy" "bloomberg-emsx-strategy";
    from_lean_config c "bloomberg_emsx_notes" "bloomberg-emsx-notes";
    from_lean_config c "bloomberg_emsx_handling" "bloomberg-emsx-handling";
    from_lean_config c "bloomberg_execution" "bloomberg-execution";
    from_lean_config c "bloomberg_allow_modification" "bloomberg-allow-modification";
    {| Click.param_name := "image"; Click.param_default := Click.NoDefault |};
    {| Click.param_name := "update"; Click.param_default := Click.Constant (VBool false) |}
  ].

(** The arguments of [live] that the model reads, taken from [ctx.params].
    Click's conversions make [project] a path and the four options a string
    or [None]; a parameter that is not in [ctx.params] cannot be bound, and
    no other shape of value is modelled. *)
Definition optional_str (v : option value) : option (option string) :=
  match v with
  | Some (VStr s) => Some (Some s)
  | Some VNone => Some None
  | _ => None
  end.

Definition bind_arguments (params : gmap string value) : option live_args :=
  match params !! "project" with
  | Some (VStr project) =>
      environment ← optional_str (params !! "environment");
      brokerage ← optional_str (params !! "brokerage");
      data_feed ← optional_str (params !! "data_feed");
      bloomberg_organization ← optional_str (params !! "bloomberg_organization");
      Some {| Live.params := params;
              project := project;
              environment := environment;
              brokerage := brokerage;
              data_feed := data_feed;
              bloomberg_organization := bloomberg_organization |}
  | _ => None
  end.

(** The call of the callback, [live(ctx, **ctx.params)]. *)
Definition call_live (c : container) (lib : local_brokerages)
    (params : gmap string value) : M unit :=
  match bind_arguments params with
  | Some args => live c lib args
  | None => lift (Raise TypeError)
  end.

(** One invocation of [lean live]: the option defaults are evaluated while
    click processes the parameters, before [LeanCommand.invoke] runs its
    checks and before the body of [live] resets the globals. *)
Definition invocation (c : container) (lib : local_brokerages) (h : Click.host)
    (cl : Click.command_line) : world → Click.outcome * world :=
  Click.main live_command h cl (call_live c lib).

(* ===================================================================== *)
(** ** Vocabulary of the statements and concrete configurations          *)
(* ===================================================================== *)

(** The environment and configuration of Scenario B: Oanda as brokerage and
    data feed, and only the account id configured. *)
Definition oanda_environment : gmap string value :=
  <["data-queue-handler" := VStr "OandaBrokerage"]>
    (<["live-mode-brokerage" := VStr "OandaBrokerage"]> environment_skeleton_at_import).

Definition oanda_config : gmap string value :=
  list_to_map [
    ("environments", VDict {[ "lean-cli" := VDict oanda_environment ]});
    ("oanda-account-id", VStr "001-001-1234567-001")
  ].

(** The same with a token that is [0] and an Oanda environment that is
    [False]: present, though falsy. *)
Definition oanda_config_falsy : gmap string value :=
  <["oanda-environment" := VBool false]> (<["oanda-access-token" := VInt 0]> oanda_config).

(** A configuration whose "lean-cli" environment is [environment]. *)
Definition config_with_environment (environment : gmap string value) : gmap string value :=
  {[ "environments" := VDict {[ "lean-cli" := VDict environment ]} ]}.

(** An environment that declares an Oanda brokerage and data queue handler
    and nothing else. *)
Definition environment_without_live_mode : gmap string value :=
  {[ "live-mode-brokerage" := VStr "OandaBrokerage";
     "data-queue-handler" := VStr "OandaBrokerage" ]}.

(** An environment flagged as not live that declares no brokerage and no
    data queue handler. *)
Definition backtesting_environment : gmap string value :=
  {[ "live-mode" := VBool false ]}.

(** The paper trading brokerage of Scenario A and an Oanda data feed. *)
Definition paper_trading_brokerage : configurer :=
  {| identifier := "PaperTradingBrokerage";
     properties := {[ "paper-trading" := VBool true ]} |}.

Definition oanda_data_feed : configurer :=
  {| identifier := "OandaBrokerage";
     properties :=
       list_to_map [
         ("oanda-environment", VStr "Practice");
         ("oanda-access-token", VStr "token");
         ("oanda-account-id", VStr "001-001-1234567-001")
       ] |}.

(** A configuration file that declares a backtesting environment. *)
Definition backtesting_config : gmap string value :=
  list_to_map [
    ("environments", VDict {[ "backtesting" := VDict backtesting_environment ]});
    ("data-folder", VStr "data")
  ].

(** [lean_config["environments"][name]], when there is such an environment. *)
Definition environment_of (lean_config : gmap string value) (name : string) : option value :=
  match lean_config !! "environments" with
  | Some (VDict environments) => environments !! name
  | _ => None
  end.

(** What a step of the command may do to the cached globals: it leaves the
    cached configuration alone, fetches the organizations at most once and
    only if they are not cached, caches them if it fetched them and returned,
    and keeps a cache that is filled. *)
Definition within_fetch_budget {A} (m : M A) : Prop :=
  ∀ w,
    _cached_lean_config (m w).2 = _cached_lean_config w
    ∧ get_all_calls w ≤ get_all_calls (m w).2
    ∧ get_all_calls (m w).2
      ≤ get_all_calls w + match _cached_organizations w with Some _ => 0 | None => 1 end
    ∧ (get_all_calls w < get_all_calls (m w).2 →
       (∃ a, (m w).1 = Ok a) → is_Some (_cached_organizations (m w).2))
    ∧ (is_Some (_cached_organizations w) → is_Some (_cached_organizations (m w).2)).

(** A configuration for paper trading on Binance data: the brokerage
    identifier is in no requirement table. *)
Definition paper_binance_environment : gmap string value :=
  <["data-queue-handler" := VStr "BinanceBrokerage"]>
    (<["live-mode-brokerage" := VStr "PaperBrokerage"]> environment_skeleton_at_import).

Definition paper_binance_config : gmap string value :=
  list_to_map [
    ("environments", VDict {[ "lean-cli" := VDict paper_binance_environment ]});
    ("binance-api-key", VStr "key");
    ("binance-api-secret", VStr "secret")
  ].

(** Collaborators for a run of the command: an account that is a member of
    one organization, a configuration file with a backtesting environment,
    classes that store the organization id they are given. *)
Definition example_container : container :=
  {| organizations_get_all := λ _, Ok [ {| org_id := "d6d62db4"; org_name := "Research" |} ];
     get_lean_config := Ok backtesting_config;
     get_complete_lean_config := λ _ _, Ok backtesting_config;
     get_lean_config_path := "lean.json";
     find_algorithm_file := λ project, Ok (project +:+ "/main.py");
     is_file := λ _, true;
     run_lean := λ _ _ _ _, Ok tt |}.

Definition example_properties (organization_id : option string) : gmap string value :=
  match organization_id with
  | Some id => {[ "job-organization-id" := VStr id ]}
  | None => ∅
  end.

Definition example_local_brokerages : local_brokerages :=
  {| brokerage_get_name := λ cls,
       match cls with
       | PaperTradingBrokerage => "Paper Trading"
       | InteractiveBrokersBrokerage => "Interactive Brokers"
       | TradierBrokerage => "Tradier"
       | OANDABrokerage => "OANDA"
       | BitfinexBrokerage => "Bitfinex"
       | CoinbaseProBrokerage => "Coinbase Pro"
       | BinanceBrokerage => "Binance"
       | ZerodhaBrokerage => "Zerodha"
       | BloombergBrokerage => "Bloomberg"
       end;
     data_feed_get_name := λ cls,
       match cls with
       | InteractiveBrokersDataFeed => "Interactive Brokers"
       | TradierDataFeed => "Tradier"
       | OANDADataFeed => "OANDA"
       | BitfinexDataFeed => "Bitfinex"
       | CoinbaseProDataFeed => "Coinbase Pro"
       | BinanceDataFeed => "Binance"
       | ZerodhaDataFeed => "Zerodha"
       | BloombergDataFeed => "Bloomberg"
       | IQFeedDataFeed => "IQFeed"
       end;
     ensure_options := λ _ _, Ok tt;
     new_brokerage := λ cls _ organization_id,
       {| identifier := match cls with
                        | BloombergBrokerage => "BloombergBrokerage"
                        | _ => "PaperBrokerage"
                        end;
          properties := example_properties organization_id |};
     new_data_feed := λ cls _ organization_id,
       {| identifier := match cls with
                        | BloombergDataFeed => "BloombergBrokerage"
                        | _ => "QuantConnect.ToolBox.IQFeed.IQFeedDataQueueHandler"
                        end;
          properties := example_properties organization_id |};
     prompt_brokerage := λ _, Ok paper_trading_brokerage;
     prompt_data_feed := λ _ _, Ok oanda_data_feed |}.

(** [lean live Project --brokerage Bloomberg --data-feed Bloomberg
    --bloomberg-organization Research] *)
Definition bloomberg_args : live_args :=
  {| params := ∅;
     project := "Project";
     environment := None;
     brokerage := Some "Bloomberg";
     data_feed := Some "Bloomberg";
     bloomberg_organization := Some "Research" |}.

(** *** Invocations that share a process *)

(** A configuration file with a live Oanda environment, the Oanda
    credentials and the Bloomberg port. *)
Definition lean_config_file (account : string) (port : value) : gmap string value :=
  list_to_map [
    ("environments", VDict {[ "live" := VDict oanda_environment ]});
    ("oanda-account-id", VStr account);
    ("oanda-access-token", VStr "token");
    ("oanda-environment", VStr "Practice");
    ("bloomberg-server-port", port)
  ].

(** The file with a mistyped port, and the file after the user has corrected
    the port and changed the account. *)
Definition mistyped_lean_config : gmap string value :=
  lean_config_file "001-001-1234567-001" (VStr "abc").

Definition corrected_lean_config : gmap string value :=
  lean_config_file "001-001-7654321-001" (VInt 8194).

(** The collaborators while the configuration file holds [lean_config]. *)
Definition container_reading (lean_config : gmap string value) : container :=
  {| organizations_get_all := organizations_get_all example_container;
     get_lean_config := Ok lean_config;
     get_complete_lean_config := λ _ _, Ok lean_config;
     get_lean_config_path := "lean.json";
     find_algorithm_file := find_algorithm_file example_container;
     is_file := is_file example_container;
     run_lean := run_lean example_container |}.

(** Click's conversions on the values of the examples: [--bloomberg-server-port]
    is declared [type=int] and the text 'abc' is no integer; the other values
    are of the declared type already. *)
Definition example_convert (name : string) (v : value) : option value :=
  if String.eqb name "bloomberg_server_port" && eq_str v "abc" then None else Some v.

(** The parameters as click processes them: those that the command line
    gives, then the others in the order of their declarations. *)
Definition in_processing_order (declared : list Click.parameter)
    (given : list (string * value)) : list (Click.parameter * option value) :=
  omap (λ '(name, v),
          (λ p, (p, Some v))
            <$> List.find (λ p, String.eqb (Click.param_name p) name) declared) given
  ++ ((λ p, (p, None))
        <$> List.filter (λ p, negb (bool_decide (Click.param_name p ∈ given.*1))) declared).

(** [lean live Project --environment live] *)
Definition live_environment_command_line (c : container) : Click.command_line :=
  {| Click.processed :=
       in_processing_order (live_params c)
         [("environment", VStr "live"); ("project", VStr "Project")];
     Click.convert := example_convert |}.

(** A test session: pytest is loaded, so the Docker checks are skipped. *)
Definition pytest_host : Click.host :=
  {| Click.get_cli_root_directory := Ok "/home/user/lean";
     Click.pytest_loaded := true;
     Click.platform_system := "Linux";
     Click.docker_path := Some "/usr/bin/docker";
     Click.getuid := 1000;
     Click.is_missing_permission := false;
     Click.executable := "/usr/bin/python3";
     Click.argv := ["lean"; "live"; "Project"; "--environment"; "live"];
     Click.show_announcements := Ok tt;
     Click.warn_if_cli_outdated := Ok tt |}.

(** A long-lived process on Linux that hosts the command, with Docker found
    at [docker]. *)
Definition server_host (docker : string) : Click.host :=
  {| Click.get_cli_root_directory := Ok "/home/user/lean";
     Click.pytest_loaded := false;
     Click.platform_system := "Linux";
     Click.docker_path := Some docker;
     Click.getuid := 1000;
     Click.is_missing_permission := false;
     Click.executable := "/usr/bin/python3";
     Click.argv := ["lean"; "live"; "Project"; "--environment"; "live"];
     Click.show_announcements := Ok tt;
     Click.warn_if_cli_outdated := Ok tt |}.

(* ===================================================================== *)
(** ** Auxiliary facts                                                    *)
(* ===================================================================== *)

Lemma size_zero_empty (X : gset string) : size X = 0 ↔ X = ∅.
Proof. rewrite size_empty_iff. by unfold_leibniz. Qed.

Lemma elem_of_missing_properties (lean_config : gmap string value)
    (required_properties : list string) (k : string) :
  k ∈ missing_properties lean_config required_properties
  ↔ k ∈ required_properties
    ∧ (lean_config !! k = None ∨ lean_config !! k = Some (VStr EmptyString)).
Proof.
  unfold missing_properties.
  rewrite elem_of_list_to_set, list_elem_of_In, filter_In, <- list_elem_of_In.
  unfold property_missing.
  split; intros [Hin Hmiss]; split; try done.
  - destruct (lean_config !! k) as [v|]; [right | by left].
    destruct v; try done. simpl in Hmiss.
    apply String.eqb_eq in Hmiss. by subst.
  - by destruct Hmiss as [-> | ->].
Qed.

(** With both identifiers declared as strings, the validator comes down to
    its last three lines. *)
Lemma raise_for_missing_properties_declared
    (brokerage_table data_queue_handler_table : gmap string (list string))
    (lean_config environments environment : gmap string value)
    (environment_name lean_config_path b d : string) :
  lean_config !! "environments" = Some (VDict environments) →
  environments !! environment_name = Some (VDict environment) →
  environment !! "live-mode-brokerage" = Some (VStr b) →
  environment !! "data-queue-handler" = Some (VStr d) →
  raise_for_missing_properties_with brokerage_table data_queue_handler_table
    lean_config environment_name lean_config_path
  = let missing := missing_properties lean_config
                     (default [] (brokerage_table !! b)
                      ++ default [] (data_queue_handler_table !! d)) in
    if bool_decide (size missing = 0) then Ok tt
    else Raise (MissingPropertiesError missing lean_config_path).
Proof.
  intros Henvs Henv Hb Hd.
  unfold raise_for_missing_properties_with. simpl.
  rewrite Henvs. simpl. rewrite Henv. simpl.
  by rewrite Hb, Hd.
Qed.

(** On identifiers, the validator returns when the set of missing properties
    is empty and raises that set otherwise. *)
Lemma raise_for_missing_properties_result
    (lean_config environments environment : gmap string value)
    (environment_name lean_config_path b d : string) :
  lean_config !! "environments" = Some (VDict environments) →
  environments !! environment_name = Some (VDict environment) →
  environment !! "live-mode-brokerage" = Some (VStr b) →
  environment !! "data-queue-handler" = Some (VStr d) →
  let missing := missing_properties lean_config
                   (brokerage_requirements b ++ data_queue_handler_requirements d) in
  _raise_for_missing_properties lean_config environment_name lean_config_path
  = (if bool_decide (missing = ∅) then Ok tt
     else Raise (MissingPropertiesError missing lean_config_path)).
Proof.
  intros Henvs Henv Hb Hd missing. unfold _raise_for_missing_properties.
  rewrite (raise_for_missing_properties_declared _ _ _ _ _ _ _ _ _ Henvs Henv Hb Hd).
  cbv zeta. fold (brokerage_requirements b) (data_queue_handler_requirements d).
  by rewrite (bool_decide_ext _ _ (size_zero_empty _)).
Qed.

(* ===================================================================== *)
(** ** The requirement tables and the missing properties                  *)
(* ===================================================================== *)

(** C1: for a configuration whose environment declares the brokerage [b] and
    the data queue handler [d], the validator's set of missing properties is
    exactly the set of the keys [k] of
    [brokerage_requirements b ++ data_queue_handler_requirements d] that are
    not a key of the configuration or whose value is the empty string: the
    validator returns when that set is empty and raises it otherwise.  A key
    whose value is anything but the empty string ([False] and [0] included) is
    never in the set; a required key whose value is the empty string always
    is. *)
Theorem missing_properties_exact
    (lean_config environments environment : gmap string value)
    (environment_name lean_config_path b d : string) :
  lean_config !! "environments" = Some (VDict environments) →
  environments !! environment_name = Some (VDict environment) →
  environment !! "live-mode-brokerage" = Some (VStr b) →
  environment !! "data-queue-handler" = Some (VStr d) →
  ∃ missing : gset string,
    (∀ k, k ∈ missing
          ↔ k ∈ brokerage_requirements b ++ data_queue_handler_requirements d
            ∧ (lean_config !! k = None ∨ lean_config !! k = Some (VStr EmptyString)))
    ∧ _raise_for_missing_properties lean_config environment_name lean_config_path
      = (if bool_decide (missing = ∅) then Ok tt
         else Raise (MissingPropertiesError missing lean_config_path))
    ∧ (∀ k v, lean_config !! k = Some v → v ≠ VStr EmptyString → k ∉ missing)
    ∧ (∀ k, lean_config !! k = Some (VBool false) ∨ lean_config !! k = Some (VInt 0) →
            k ∉ missing)
    ∧ (∀ k, k ∈ brokerage_requirements b ++ data_queue_handler_requirements d →
            lean_config !! k = Some (VStr EmptyString) → k ∈ missing).
Proof.
  intros Henvs Henv Hb Hd.
  exists (missing_properties lean_config
            (brokerage_requirements b ++ data_queue_handler_requirements d)).
  assert (Hnot : ∀ k v, lean_config !! k = Some v → v ≠ VStr EmptyString →
            k ∉ missing_properties lean_config
                  (brokerage_requirements b ++ data_queue_handler_requirements d)).
  { intros k v Hk Hv [_ [Hnone | Hempty]]%elem_of_missing_properties; congruence. }
  split_and!.
  - apply elem_of_missing_properties.
  - exact (raise_for_missing_properties_result _ _ _ _ _ _ _ Henvs Henv Hb Hd).
  - exact Hnot.
  - intros k [Hk | Hk]; eapply Hnot; eauto; discriminate.
  - intros k Hk Hempty. apply elem_of_missing_properties. auto.
Qed.

(** C1 on Scenario B's configuration, where the token is [0] and the Oanda
    environment is [False]: nothing is missing. *)
Lemma missing_properties_exact_witness :
  ∃ missing : gset string,
    (∀ k, k ∈ missing
          ↔ k ∈ brokerage_requirements "OandaBrokerage"
                ++ data_queue_handler_requirements "OandaBrokerage"
            ∧ (oanda_config_falsy !! k = None
               ∨ oanda_config_falsy !! k = Some (VStr EmptyString)))
    ∧ _raise_for_missing_properties oanda_config_falsy "lean-cli" "lean.json"
      = (if bool_decide (missing = ∅) then Ok tt
         else Raise (MissingPropertiesError missing "lean.json"))
    ∧ (∀ k v, oanda_config_falsy !! k = Some v → v ≠ VStr EmptyString → k ∉ missing)
    ∧ (∀ k, oanda_config_falsy !! k = Some (VBool false)
            ∨ oanda_config_falsy !! k = Some (VInt 0) → k ∉ missing)
    ∧ (∀ k, k ∈ brokerage_requirements "OandaBrokerage"
                ++ data_queue_handler_requirements "OandaBrokerage" →
            oanda_config_falsy !! k = Some (VStr EmptyString) → k ∈ missing).
Proof.
  apply (missing_properties_exact oanda_config_falsy
           {[ "lean-cli" := VDict oanda_environment ]} oanda_environment
           "lean-cli" "lean.json" "OandaBrokerage" "OandaBrokerage");
    vm_compute; reflexivity.
Defined.

(** Substrings: a string occurs in whatever is built around it. *)
Lemma string_append_assoc (s1 s2 s3 : string) :
  (s1 +:+ s2) +:+ s3 = s1 +:+ (s2 +:+ s3).
Proof.
  induction s1 as [|a s1 IH]; [done |].
  change (String a ((s1 +:+ s2) +:+ s3) = String a (s1 +:+ (s2 +:+ s3))).
  by rewrite IH.
Qed.

Lemma prefix_append (s t : string) : String.prefix s (s +:+ t) = true.
Proof.
  induction s as [|a s IH]; [by destruct t |].
  change (String.prefix (String a s) (String a (s +:+ t)) = true).
  simpl. by destruct (Ascii.ascii_dec a a).
Qed.

Lemma index_0_cons (s t : string) (c : Ascii.ascii) :
  String.index 0 s (String c t)
  = if String.prefix s (String c t) then Some 0
    else match String.index 0 s t with Some n => Some (S n) | None => None end.
Proof. reflexivity. Qed.

Lemma is_substring_middle (a s b : string) : is_substring s (a +:+ (s +:+ b)) = true.
Proof.
  unfold is_substring. induction a as [|c a IH].
  - change (EmptyString +:+ (s +:+ b)) with (s +:+ b).
    pose proof (prefix_append s b) as Hp.
    destruct (s +:+ b) eqn:E.
    + by destruct s.
    + by rewrite index_0_cons, Hp.
  - change (String c a +:+ (s +:+ b)) with (String c (a +:+ (s +:+ b))).
    rewrite index_0_cons.
    destruct (String.prefix s (String c (a +:+ (s +:+ b)))); [done |].
    by destruct (String.index 0 s (a +:+ (s +:+ b))).
Qed.

Lemma string_append_empty_r (s : string) : s +:+ EmptyString = s.
Proof.
  induction s as [|c s IH]; [done |].
  change (String c (s +:+ EmptyString) = String c s). by rewrite IH.
Qed.

Lemma join_lines_line (lines : list string) (l : string) :
  l ∈ lines → ∃ a b, join_lines lines = a +:+ (l +:+ b).
Proof.
  induction lines as [|x lines IH]; [by intros ?%elem_of_nil |].
  intros [<- | Hin]%elem_of_cons.
  - destruct lines as [|y lines].
    + exists EmptyString, EmptyString. simpl. by rewrite string_append_empty_r.
    + by exists EmptyString, (newline +:+ join_lines (y :: lines)).
  - destruct (IH Hin) as (a & b & Hab).
    destruct lines as [|y lines]; [by apply elem_of_nil in Hin |].
    exists (x +:+ newline +:+ a), b.
    change (join_lines (x :: y :: lines)) with (x +:+ newline +:+ join_lines (y :: lines)).
    by rewrite Hab, !string_append_assoc.
Qed.

Lemma is_substring_prepend (x s t : string) :
  is_substring s t = true → is_substring s (x +:+ t) = true.
Proof.
  unfold is_substring. intros Ht. induction x as [|c x IH]; [done |].
  change (String c x +:+ t) with (String c (x +:+ t)).
  rewrite index_0_cons.
  destruct (String.prefix s (String c (x +:+ t))); [done |].
  by destruct (String.index 0 s (x +:+ t)).
Qed.

(** Whatever the order in which the set is iterated, the message of the
    error has a line for each element. *)
Lemma missing_properties_message_lists (order : list string) (path k : string) :
  k ∈ order → is_substring ("- " +:+ k) (missing_properties_message order path) = true.
Proof.
  intros Hk. unfold missing_properties_message.
  destruct (join_lines_line ((λ p, "- " +:+ p) <$> order) ("- " +:+ k)) as (a & b & Hab).
  { apply list_elem_of_fmap. eauto. }
  rewrite Hab. cbv zeta. generalize ("- " +:+ k). intros l.
  do 6 apply is_substring_prepend.
  rewrite !string_append_assoc.
  apply is_substring_middle.
Qed.

Lemma oanda_brokerage_requirements :
  brokerage_requirements "OandaBrokerage"
  = ["oanda-environment"; "oanda-access-token"; "oanda-account-id"].
Proof. vm_compute. reflexivity. Qed.

Lemma oanda_data_queue_handler_requirements :
  data_queue_handler_requirements "OandaBrokerage"
  = ["oanda-environment"; "oanda-access-token"; "oanda-account-id"].
Proof. vm_compute. reflexivity. Qed.

(** C4: when a required property is absent or empty, the validator raises
    one error that carries the whole set of missing keys, and the message of
    that error lists every one of them, in whatever order the set is
    iterated.  With Oanda as brokerage and data queue handler and, of the
    Oanda keys, only the account id configured, the error carries exactly
    "oanda-access-token" and "oanda-environment". *)
Theorem missing_properties_error_complete :
  (∀ (lean_config environments environment : gmap string value)
     (environment_name lean_config_path b d k : string),
     lean_config !! "environments" = Some (VDict environments) →
     environments !! environment_name = Some (VDict environment) →
     environment !! "live-mode-brokerage" = Some (VStr b) →
     environment !! "data-queue-handler" = Some (VStr d) →
     k ∈ brokerage_requirements b ++ data_queue_handler_requirements d →
     lean_config !! k = None ∨ lean_config !! k = Some (VStr EmptyString) →
     ∃ missing : gset string,
       _raise_for_missing_properties lean_config environment_name lean_config_path
       = Raise (MissingPropertiesError missing lean_config_path)
       ∧ (∀ k', k' ∈ missing
                ↔ k' ∈ brokerage_requirements b ++ data_queue_handler_requirements d
                  ∧ (lean_config !! k' = None
                     ∨ lean_config !! k' = Some (VStr EmptyString)))
       ∧ (∀ (order : list string) k',
             (∀ x, x ∈ order ↔ x ∈ missing) → k' ∈ missing →
             is_substring ("- " +:+ k')
               (missing_properties_message order lean_config_path) = true))
  ∧ (∀ (lean_config environments environment : gmap string value)
       (environment_name lean_config_path : string) (account_id : value),
       lean_config !! "environments" = Some (VDict environments) →
       environments !! environment_name = Some (VDict environment) →
       environment !! "live-mode-brokerage" = Some (VStr "OandaBrokerage") →
       environment !! "data-queue-handler" = Some (VStr "OandaBrokerage") →
       lean_config !! "oanda-account-id" = Some account_id →
       account_id ≠ VStr EmptyString →
       lean_config !! "oanda-access-token" = None →
       lean_config !! "oanda-environment" = None →
       _raise_for_missing_properties lean_config environment_name lean_config_path
       = Raise (MissingPropertiesError {[ "oanda-access-token"; "oanda-environment" ]}
                  lean_config_path)).
Proof.
  split.
  - intros lean_config environments environment environment_name lean_config_path b d k
      Henvs Henv Hb Hd Hk Hmiss.
    pose proof (raise_for_missing_properties_result _ _ _ environment_name lean_config_path
                  _ _ Henvs Henv Hb Hd) as Hres.
    cbv zeta in Hres. eexists. split_and!; [| apply elem_of_missing_properties |].
    + rewrite Hres, bool_decide_eq_false_2; [done |].
      intros Hempty.
      assert (k ∈ missing_properties lean_config
                    (brokerage_requirements b ++ data_queue_handler_requirements d)) as Hin
        by (apply elem_of_missing_properties; auto).
      rewrite Hempty in Hin. by apply not_elem_of_empty in Hin.
    + intros order k' Horder Hk'.
      apply missing_properties_message_lists, Horder, Hk'.
  - intros lean_config environments environment environment_name lean_config_path account_id
      Henvs Henv Hb Hd Hacc Hne Htok Hoenv.
    pose proof (raise_for_missing_properties_result _ _ _ environment_name lean_config_path
                  _ _ Henvs Henv Hb Hd) as Hres.
    cbv zeta in Hres.
    rewrite oanda_brokerage_requirements, oanda_data_queue_handler_requirements in Hres.
    match type of Hres with
    | context [MissingPropertiesError ?missing _] =>
        assert (missing = {[ "oanda-access-token"; "oanda-environment" ]}) as Hset
    end.
    { apply set_eq. intros k. rewrite elem_of_missing_properties. set_unfold.
      split.
      - intros [Hk [Hnone | Hempty]]; destruct_or!; subst; auto; congruence.
      - intros [-> | ->]; auto 10. }
    rewrite Hset in Hres. rewrite Hres. by vm_compute.
Qed.

(** C4 on Scenario B's configuration. *)
Lemma missing_properties_error_complete_witness :
  _raise_for_missing_properties oanda_config "lean-cli" "lean.json"
  = Raise (MissingPropertiesError {[ "oanda-access-token"; "oanda-environment" ]} "lean.json").
Proof.
  apply (proj2 missing_properties_error_complete oanda_config
           {[ "lean-cli" := VDict oanda_environment ]} oanda_environment
           "lean-cli" "lean.json" (VStr "001-001-1234567-001"));
    first [ discriminate | vm_compute; reflexivity ].
Defined.

Lemma missing_properties_none (lean_config : gmap string value) (required : list string) :
  (∀ k, k ∈ required → ∃ v, lean_config !! k = Some v ∧ v ≠ VStr EmptyString) →
  missing_properties lean_config required = ∅.
Proof.
  intros Hall. apply set_eq. intros k.
  rewrite elem_of_missing_properties. split; [| by intros ?%not_elem_of_empty].
  intros [Hk Hmiss]. destruct (Hall k Hk) as (v & Hv & Hne).
  destruct Hmiss; congruence.
Qed.

(** C8: the lookup in either requirement table never fails on an identifier,
    and gives the empty list for an identifier that is not a key of the table.
    An unknown brokerage (or data queue handler) identifier is no error for
    the validator: it returns as soon as every key that the other table
    requires is present and not the empty string. *)
Theorem requirement_lookup_total :
  (∀ id : string, ∃ required,
      dict_get _required_brokerage_properties (VStr id) = Ok required
      ∧ required = brokerage_requirements id
      ∧ (_required_brokerage_properties !! id = None → required = []))
  ∧ (∀ id : string, ∃ required,
      dict_get _required_data_queue_handler_properties (VStr id) = Ok required
      ∧ required = data_queue_handler_requirements id
      ∧ (_required_data_queue_handler_properties !! id = None → required = []))
  ∧ (∀ (lean_config environments environment : gmap string value)
       (environment_name lean_config_path b d : string),
       lean_config !! "environments" = Some (VDict environments) →
       environments !! environment_name = Some (VDict environment) →
       environment !! "live-mode-brokerage" = Some (VStr b) →
       environment !! "data-queue-handler" = Some (VStr d) →
       _required_brokerage_properties !! b = None →
       (∀ k, k ∈ data_queue_handler_requirements d →
             ∃ v, lean_config !! k = Some v ∧ v ≠ VStr EmptyString) →
       _raise_for_missing_properties lean_config environment_name lean_config_path = Ok tt)
  ∧ (∀ (lean_config environments environment : gmap string value)
       (environment_name lean_config_path b d : string),
       lean_config !! "environments" = Some (VDict environments) →
       environments !! environment_name = Some (VDict environment) →
       environment !! "live-mode-brokerage" = Some (VStr b) →
       environment !! "data-queue-handler" = Some (VStr d) →
       _required_data_queue_handler_properties !! d = None →
       (∀ k, k ∈ brokerage_requirements b →
             ∃ v, lean_config !! k = Some v ∧ v ≠ VStr EmptyString) →
       _raise_for_missing_properties lean_config environment_name lean_config_path = Ok tt).
Proof.
  split_and!.
  - intros id. eexists. split_and!; [done.. |].
    unfold brokerage_requirements. by intros ->.
  - intros id. eexists. split_and!; [done.. |].
    unfold data_queue_handler_requirements. by intros ->.
  - intros lean_config environments environment environment_name lean_config_path b d
      Henvs Henv Hb Hd Hunknown Hpresent.
    unfold _raise_for_missing_properties.
    rewrite (raise_for_missing_properties_declared _ _ _ _ _ _ _ _ _ Henvs Henv Hb Hd).
    cbv zeta. rewrite Hunknown. simpl.
    fold (data_queue_handler_requirements d).
    by rewrite missing_properties_none.
  - intros lean_config environments environment environment_name lean_config_path b d
      Henvs Henv Hb Hd Hunknown Hpresent.
    unfold _raise_for_missing_properties.
    rewrite (raise_for_missing_properties_declared _ _ _ _ _ _ _ _ _ Henvs Henv Hb Hd).
    cbv zeta. rewrite Hunknown. simpl. rewrite app_nil_r.
    fold (brokerage_requirements b).
    by rewrite missing_properties_none.
Qed.

(** C8 on that configuration. *)
Lemma requirement_lookup_total_witness :
  _raise_for_missing_properties paper_binance_config "lean-cli" "lean.json" = Ok tt.
Proof.
  destruct requirement_lookup_total as (_ & _ & Hunknown & _).
  apply (Hunknown paper_binance_config {[ "lean-cli" := VDict paper_binance_environment ]}
           paper_binance_environment "lean-cli" "lean.json" "PaperBrokerage" "BinanceBrokerage");
    try (vm_compute; reflexivity).
  intros k Hk. vm_compute in Hk.
  apply elem_of_cons in Hk as [-> | Hk]; [eexists; split; [vm_compute; reflexivity | discriminate] |].
  apply elem_of_cons in Hk as [-> | Hk]; [eexists; split; [vm_compute; reflexivity | discriminate] |].
  by apply elem_of_nil in Hk.
Defined.

(** C3: an identifier that is a key of both requirement tables requires, as
    a data queue handler, every property that it requires as a brokerage. *)
Theorem data_queue_handler_requirements_superset (b : string) :
  is_Some (_required_brokerage_properties !! b) →
  is_Some (_required_data_queue_handler_properties !! b) →
  brokerage_requirements b ⊆ data_queue_handler_requirements b.
Proof.
  intros _ [dp Hdp].
  unfold data_queue_handler_requirements, brokerage_requirements.
  pose proof Hdp as Hin.
  apply elem_of_list_to_map_2 in Hin.
  rewrite !elem_of_cons, elem_of_nil in Hin.
  destruct_or! Hin; try done; injection Hin as Hkey Hlist; subst b dp;
    match goal with
    | |- ?bp ⊆ ?dp =>
        let bp' := eval vm_compute in bp in
        let dp' := eval vm_compute in dp in
        change (bp' ⊆ dp')
    end;
    intros k; rewrite !elem_of_cons; tauto.
Qed.

(** C3 on Zerodha, whose data queue handler entry adds the history
    subscription flag. *)
Lemma data_queue_handler_requirements_superset_witness :
  brokerage_requirements "ZerodhaBrokerage" ⊆ data_queue_handler_requirements "ZerodhaBrokerage".
Proof.
  apply (data_queue_handler_requirements_superset "ZerodhaBrokerage");
    vm_compute; eauto.
Defined.

(** The identifiers that are keys of both tables. *)
Lemma shared_identifiers (b : string) :
  is_Some (_required_brokerage_properties !! b)
  ∧ is_Some (_required_data_queue_handler_properties !! b)
  ↔ b ∈ ["TradierBrokerage"; "OandaBrokerage"; "BitfinexBrokerage"; "BinanceBrokerage";
         "ZerodhaBrokerage"; "BloombergBrokerage"].
Proof.
  split.
  - intros [[bp Hbp] [dp Hdp]]. apply elem_of_list_to_map_2 in Hdp.
    rewrite !elem_of_cons, elem_of_nil in Hdp. rewrite !elem_of_cons.
    destruct_or! Hdp; try done; injection Hdp as Hkey _; subst b;
      first [ by auto 10 | vm_compute in Hbp; discriminate ].
  - rewrite !elem_of_cons, elem_of_nil.
    intros Hb. destruct_or! Hb; try done; subst b; split; vm_compute; eauto.
Qed.

(** Interactive Brokers and Coinbase Pro go by another identifier as data
    queue handlers; the entries of those identifiers extend the brokerage
    entries as well. *)
Lemma renamed_data_queue_handlers_superset :
  brokerage_requirements "InteractiveBrokersBrokerage"
  ⊆ data_queue_handler_requirements
      "QuantConnect.Brokerages.InteractiveBrokers.InteractiveBrokersBrokerage"
  ∧ brokerage_requirements "GDAXBrokerage"
    ⊆ data_queue_handler_requirements "GDAXDataQueueHandler".
Proof.
  split;
    match goal with
    | |- ?bp ⊆ ?dp =>
        let bp' := eval vm_compute in bp in
        let dp' := eval vm_compute in dp in
        change (bp' ⊆ dp')
    end;
    intros k; rewrite !elem_of_cons; tauto.
Qed.

(* ===================================================================== *)
(** ** The order of the checks                                            *)
(* ===================================================================== *)

(** [live_checks] on a declared environment: the live-mode flag is read and
    tested before the validator is called. *)
Lemma live_checks_declared (lean_config environments environment : gmap string value)
    (environment_name lean_config_path : string) :
  lean_config !! "environments" = Some (VDict environments) →
  environments !! environment_name = Some (VDict environment) →
  live_checks lean_config environment_name lean_config_path
  = match environment !! "live-mode" with
    | None => Raise (KeyError "live-mode")
    | Some live_mode =>
        if negb (truthy live_mode) then Raise (NotLiveEnvironment environment_name)
        else _raise_for_missing_properties lean_config environment_name lean_config_path
    end.
Proof.
  intros Henvs Henv. unfold live_checks. simpl.
  rewrite Henvs. simpl. rewrite Henv. simpl.
  by destruct (environment !! "live-mode").
Qed.

(** The validator on an environment that lacks one of the two keys: the loop
    of lines 84-87 raises at the first key that is absent. *)
Lemma raise_for_missing_properties_undeclared_key
    (brokerage_table data_queue_handler_table : gmap string (list string))
    (lean_config environments environment : gmap string value)
    (environment_name lean_config_path : string) :
  lean_config !! "environments" = Some (VDict environments) →
  environments !! environment_name = Some (VDict environment) →
  (environment !! "live-mode-brokerage" = None →
   raise_for_missing_properties_with brokerage_table data_queue_handler_table
     lean_config environment_name lean_config_path
   = Raise (MissingRequiredKey environment_name "live-mode-brokerage"))
  ∧ (is_Some (environment !! "live-mode-brokerage") →
     environment !! "data-queue-handler" = None →
     raise_for_missing_properties_with brokerage_table data_queue_handler_table
       lean_config environment_name lean_config_path
     = Raise (MissingRequiredKey environment_name "data-queue-handler")).
Proof.
  intros Henvs Henv. unfold raise_for_missing_properties_with. simpl.
  rewrite Henvs. simpl. rewrite Henv. simpl. split.
  - by intros ->.
  - intros [v ->] ->. done.
Qed.

(** C10: for an environment that is declared but has no "live-mode" key, the
    live-mode check of [live] raises [KeyError] for that key, which is none of
    the errors of the documented taxonomy; when the key is there and its value
    is falsy the check raises [NotLiveEnvironment]. *)
Theorem live_mode_absent_key_error
    (lean_config environments environment : gmap string value)
    (environment_name lean_config_path : string) :
  lean_config !! "environments" = Some (VDict environments) →
  environments !! environment_name = Some (VDict environment) →
  (environment !! "live-mode" = None →
   live_checks lean_config environment_name lean_config_path = Raise (KeyError "live-mode"))
  ∧ (∀ live_mode, environment !! "live-mode" = Some live_mode → truthy live_mode = false →
     live_checks lean_config environment_name lean_config_path
     = Raise (NotLiveEnvironment environment_name)).
Proof.
  intros Henvs Henv.
  rewrite (live_checks_declared _ _ _ _ _ Henvs Henv). split.
  - by intros ->.
  - by intros live_mode -> ->.
Qed.

(** C10 on that environment. *)
Lemma live_mode_absent_key_error_witness :
  live_checks (config_with_environment environment_without_live_mode) "lean-cli" "lean.json"
  = Raise (KeyError "live-mode").
Proof.
  destruct (live_mode_absent_key_error
              (config_with_environment environment_without_live_mode)
              {[ "lean-cli" := VDict environment_without_live_mode ]}
              environment_without_live_mode "lean-cli" "lean.json") as [Habsent _];
    [vm_compute; reflexivity.. |].
  apply Habsent. vm_compute; reflexivity.
Defined.

(** C2, as stated, fails: on the bare skeleton, which lacks both
    "live-mode-brokerage" and "data-queue-handler", the validator raises one
    error, and its message names the first key only. *)
Lemma missing_keys_not_both_reported :
  ∃ message url,
    _raise_for_missing_properties (config_with_environment environment_skeleton_at_import)
      "lean-cli" "lean.json"
    = Raise (MoreInfoError message url)
    ∧ is_substring "live-mode-brokerage" message = true
    ∧ is_substring "data-queue-handler" message = false.
Proof. do 2 eexists. split; [vm_compute; reflexivity |]. split; vm_compute; reflexivity. Qed.

(** C2, amended: the two keys are checked one after the other and the first
    one that is absent is the one reported.  An environment without
    "live-mode-brokerage" gets the error for that key whether or not it has a
    "data-queue-handler"; the error for "data-queue-handler" is raised only when
    "live-mode-brokerage" is there.  Either message names the environment. *)
Theorem missing_key_reported_first
    (lean_config environments environment : gmap string value)
    (environment_name lean_config_path : string) :
  lean_config !! "environments" = Some (VDict environments) →
  environments !! environment_name = Some (VDict environment) →
  (environment !! "live-mode-brokerage" = None →
   _raise_for_missing_properties lean_config environment_name lean_config_path
   = Raise (MoreInfoError
              ("The '" +:+ environment_name
                 +:+ "' environment does not specify a live-mode-brokerage")
              docs_url))
  ∧ (is_Some (environment !! "live-mode-brokerage") →
     environment !! "data-queue-handler" = None →
     _raise_for_missing_properties lean_config environment_name lean_config_path
     = Raise (MoreInfoError
                ("The '" +:+ environment_name
                   +:+ "' environment does not specify a data-queue-handler")
                docs_url))
  ∧ (∀ key message url,
       MissingRequiredKey environment_name key = MoreInfoError message url →
       is_substring environment_name message = true).
Proof.
  intros Henvs Henv.
  destruct (raise_for_missing_properties_undeclared_key
              _required_brokerage_properties _required_data_queue_handler_properties
              _ _ _ environment_name lean_config_path Henvs Henv) as [Hb Hd].
  split_and!.
  - intros Hnone. exact (Hb Hnone).
  - intros Hsome Hnone. exact (Hd Hsome Hnone).
  - intros key message url [= <- _]. apply is_substring_middle.
Qed.

(** C2, amended, on the bare skeleton. *)
Lemma missing_key_reported_first_witness :
  _raise_for_missing_properties (config_with_environment environment_skeleton_at_import)
    "lean-cli" "lean.json"
  = Raise (MoreInfoError "The 'lean-cli' environment does not specify a live-mode-brokerage"
             docs_url).
Proof.
  destruct (missing_key_reported_first
              (config_with_environment environment_skeleton_at_import)
              {[ "lean-cli" := VDict environment_skeleton_at_import ]}
              environment_skeleton_at_import "lean-cli" "lean.json") as [Hfirst _];
    [vm_compute; reflexivity.. |].
  apply Hfirst. vm_compute; reflexivity.
Defined.

(** C5, as stated, fails: an environment that lacks "live-mode-brokerage" and
    whose live-mode flag is [False] is refused as not live, not for the
    missing key. *)
Lemma falsy_live_mode_checked_before_keys :
  backtesting_environment !! "live-mode-brokerage" = None
  ∧ live_checks (config_with_environment backtesting_environment) "lean-cli" "lean.json"
    = Raise (NotLiveEnvironment "lean-cli")
  ∧ NotLiveEnvironment "lean-cli" ≠ MissingRequiredKey "lean-cli" "live-mode-brokerage".
Proof. split_and!; [vm_compute; reflexivity.. | discriminate]. Qed.

(** C5, amended: [live] checks that the environment is declared, then its
    live-mode flag, then (in the validator) that "live-mode-brokerage" and
    "data-queue-handler" are there, and only then looks into the requirement
    tables.  So an undeclared environment is reported as such; a declared
    environment whose live-mode is falsy is refused as not live whatever else
    it declares; and with a truthy live-mode, an environment without
    "live-mode-brokerage", or with it and without "data-queue-handler", gets
    the error for that key, which the validator raises whatever the
    requirement tables hold. *)
Theorem checks_in_order :
  (∀ (lean_config : gmap string value) (environment_name lean_config_path : string),
     lean_config !! "environments" = None →
     live_checks lean_config environment_name lean_config_path
     = Raise (EnvironmentUndeclared lean_config_path environment_name))
  ∧ (∀ (lean_config environments : gmap string value)
       (environment_name lean_config_path : string),
       lean_config !! "environments" = Some (VDict environments) →
       environments !! environment_name = None →
       live_checks lean_config environment_name lean_config_path
       = Raise (EnvironmentUndeclared lean_config_path environment_name))
  ∧ (∀ (lean_config environments environment : gmap string value)
       (environment_name lean_config_path : string) (live_mode : value),
       lean_config !! "environments" = Some (VDict environments) →
       environments !! environment_name = Some (VDict environment) →
       environment !! "live-mode" = Some live_mode →
       (truthy live_mode = false →
        live_checks lean_config environment_name lean_config_path
        = Raise (NotLiveEnvironment environment_name))
       ∧ (truthy live_mode = true →
          environment !! "live-mode-brokerage" = None →
          live_checks lean_config environment_name lean_config_path
          = Raise (MissingRequiredKey environment_name "live-mode-brokerage"))
       ∧ (truthy live_mode = true →
          is_Some (environment !! "live-mode-brokerage") →
          environment !! "data-queue-handler" = None →
          live_checks lean_config environment_name lean_config_path
          = Raise (MissingRequiredKey environment_name "data-queue-handler")
          ∧ ∀ brokerage_table data_queue_handler_table,
              raise_for_missing_properties_with brokerage_table data_queue_handler_table
                lean_config environment_name lean_config_path
              = Raise (MissingRequiredKey environment_name "data-queue-handler"))).
Proof.
  split_and!.
  - intros lean_config environment_name lean_config_path Hnone.
    unfold live_checks. by rewrite Hnone.
  - intros lean_config environments environment_name lean_config_path Henvs Hnone.
    unfold live_checks. simpl. rewrite Henvs. simpl. by rewrite Hnone.
  - intros lean_config environments environment environment_name lean_config_path live_mode
      Henvs Henv Hlive.
    rewrite (live_checks_declared _ _ _ _ _ Henvs Henv), Hlive.
    split_and!.
    + by intros ->.
    + intros -> Hb. simpl.
      by apply (raise_for_missing_properties_undeclared_key _ _ _ _ _ _ _ Henvs Henv).
    + intros -> Hb Hd. simpl. split; [| intros bt dt];
        by apply (raise_for_missing_properties_undeclared_key _ _ _ _ _ _ _ Henvs Henv).
Qed.

(** C5, amended, on the environment that is not live. *)
Lemma checks_in_order_witness :
  live_checks (config_with_environment backtesting_environment) "lean-cli" "lean.json"
  = Raise (NotLiveEnvironment "lean-cli").
Proof.
  destruct checks_in_order as (_ & _ & Hdeclared).
  destruct (Hdeclared (config_with_environment backtesting_environment)
              {[ "lean-cli" := VDict backtesting_environment ]}
              backtesting_environment "lean-cli" "lean.json" (VBool false)) as [Hfalsy _];
    [vm_compute; reflexivity.. |].
  apply Hfalsy. reflexivity.
Defined.

(* ===================================================================== *)
(** ** Building the environment (claims C6, C7)                           *)
(* ===================================================================== *)

Lemma set_environment_skeleton_same (w : world) :
  set_environment_skeleton (_environment_skeleton w) w = w.
Proof. by destruct w. Qed.

Lemma set_environment_skeleton_twice (x y : gmap string value) (w : world) :
  set_environment_skeleton x (set_environment_skeleton y w) = set_environment_skeleton x w.
Proof. done. Qed.

(** [set_environment_item] returns exactly when the environment is there and
    is a dictionary. *)
Lemma set_environment_item_Ok (shared : bool) (lean_config : gmap string value)
    (environment_name key : string) (v : value) (w w' : world)
    (lean_config' : gmap string value) :
  set_environment_item shared lean_config environment_name key v w = (Ok lean_config', w')
  ↔ ∃ environments environment,
      lean_config !! "environments" = Some (VDict environments)
      ∧ environments !! environment_name = Some (VDict environment)
      ∧ lean_config'
        = <["environments" :=
              VDict (<[environment_name := VDict (<[key := v]> environment)]> environments)]>
            lean_config
      ∧ w' = if shared then set_environment_skeleton (<[key := v]> environment) w else w.
Proof.
  unfold set_environment_item. simpl.
  destruct (lean_config !! "environments") as [environments|] eqn:Henvs; simpl.
  2: { split; [done | by intros (? & ? & ? & _)]. }
  destruct environments as [| | | | | |environments]; simpl;
    try (split; [done | by intros (? & ? & ? & _)]).
  destruct (environments !! environment_name) as [environment|] eqn:Henv; simpl.
  2: { split; [done | intros (? & ? & ? & ? & _); congruence]. }
  destruct environment as [| | | | | |environment]; simpl;
    try (split; [done | intros (? & ? & ? & ? & _); congruence]).
  split.
  - intros [= <- <-]. eauto 10.
  - intros (environments' & environment' & ? & ? & -> & ->). by simplify_eq.
Qed.

(** [build_environment] is line 616 followed by two writes to the
    environment, each after the entries of a configurer have been stored. *)
Lemma build_environment_Ok (lean_config : gmap string value) (environment_name : string)
    (b d : configurer) (w w2 : world) (lean_config2 : gmap string value) :
  build_environment lean_config environment_name b d w = (Ok lean_config2, w2)
  ↔ ∃ lean_config1 w1,
      set_environment_item (bool_decide (properties b !! "environments" = None))
        (properties b
         ∪ <["environments" := VDict {[ environment_name := VDict (_environment_skeleton w) ]}]>
             lean_config)
        environment_name "live-mode-brokerage" (VStr (identifier b)) w
      = (Ok lean_config1, w1)
      ∧ set_environment_item
          (bool_decide (properties b !! "environments" = None)
           && bool_decide (properties d !! "environments" = None))
          (properties d ∪ lean_config1)
          environment_name "data-queue-handler" (VStr (identifier d)) w1
        = (Ok lean_config2, w2).
Proof.
  unfold build_environment, configure, environments_from_skeleton.
  unfold mbind, M_bind, mret, M_ret. simpl.
  destruct (set_environment_item _ _ environment_name "live-mode-brokerage" _ w)
    as [[lean_config1 | exn1] w1] eqn:H1.
  2: { split; [done | by intros (? & ? & ? & _)]. }
  destruct (set_environment_item _ _ environment_name "data-queue-handler" _ w1)
    as [[lean_config2' | exn2] w2'] eqn:H2.
  - split.
    + intros [= <- <-]. eauto.
    + intros (? & ? & [= <- <-] & Hd). by rewrite H2 in Hd.
  - split; [done |]. intros (? & ? & [= <- <-] & Hd). by rewrite H2 in Hd.
Qed.

(** When neither configurer stores an entry under "environments", the
    environment that is built is the skeleton object with both identifiers
    written into it. *)
Lemma build_environment_plain (lean_config : gmap string value) (environment_name : string)
    (b d : configurer) (w : world) :
  properties b !! "environments" = None →
  properties d !! "environments" = None →
  let environment :=
    <["data-queue-handler" := VStr (identifier d)]>
      (<["live-mode-brokerage" := VStr (identifier b)]> (_environment_skeleton w)) in
  build_environment lean_config environment_name b d w
  = (Ok (<["environments" := VDict {[ environment_name := VDict environment ]}]>
           (properties d ∪ (properties b ∪ lean_config))),
     set_environment_skeleton environment w).
Proof.
  intros Hb Hd environment. apply build_environment_Ok.
  rewrite !bool_decide_eq_true_2 by done. simpl.
  eexists _, _. split.
  - apply set_environment_item_Ok. eexists _, _. split_and!; [| | done..].
    + rewrite lookup_union_r by done. apply lookup_insert_eq.
    + apply lookup_singleton_eq.
  - apply set_environment_item_Ok. eexists _, _. split_and!; [| | | done].
    + rewrite lookup_union_r by done. apply lookup_insert_eq.
    + apply lookup_insert_eq.
    + rewrite insert_insert_eq, insert_singleton_eq.
      apply map_eq. intros k. destruct (decide (k = "environments")) as [-> | Hk].
      * by rewrite !lookup_insert_eq.
      * rewrite !lookup_insert_ne by done.
        rewrite !lookup_union, !lookup_insert_ne by done.
        by rewrite lookup_union, lookup_insert_ne.
Qed.

(** Storing the same entries and rewriting the environments a second time
    gives the same dictionary, whatever the intermediate environments were. *)
Lemma rebuild_same (pb pd lean_config : gmap string value) (X Y Z X' Z' : value) :
  let lean_config1 :=
    <["environments" := Y]>
      (pd ∪ <["environments" := X]> (pb ∪ <["environments" := Z]> lean_config)) in
  <["environments" := Y]>
    (pd ∪ <["environments" := X']> (pb ∪ <["environments" := Z']> lean_config1))
  = lean_config1.
Proof.
  intros lean_config1. unfold lean_config1.
  apply map_eq. intros k. destruct (decide (k = "environments")) as [-> | Hk].
  - by rewrite !lookup_insert_eq.
  - repeat first [ rewrite lookup_insert_ne by done | rewrite lookup_union ].
    by destruct (pd !! k), (pb !! k), (lean_config !! k).
Qed.

Lemma skeleton_with_identifiers_fixed (s : gmap string value) (ib id : value) :
  let s2 := <["data-queue-handler" := id]> (<["live-mode-brokerage" := ib]> s) in
  <["data-queue-handler" := id]> (<["live-mode-brokerage" := ib]> s2) = s2.
Proof.
  intros s2. unfold s2.
  rewrite (insert_insert_ne _ "live-mode-brokerage" "data-queue-handler") by done.
  by rewrite !insert_insert_eq.
Qed.

(** C6: building the environment is idempotent.  If the environment has been
    built from a configuration, building it again from the result, with the
    same environment name and configurers (and the skeleton object as the
    first run left it), returns the same configuration and leaves the world
    as it was; and the first run does return when no configurer stores an
    entry under "environments". *)
Theorem build_environment_idempotent (lean_config : gmap string value)
    (environment_name : string) (b d : configurer) (w : world) :
  (properties b !! "environments" = None →
   properties d !! "environments" = None →
   ∃ lean_config1 w1,
     build_environment lean_config environment_name b d w = (Ok lean_config1, w1))
  ∧ (∀ lean_config1 w1,
       build_environment lean_config environment_name b d w = (Ok lean_config1, w1) →
       build_environment lean_config1 environment_name b d w1 = (Ok lean_config1, w1)).
Proof.
  split.
  { intros Hb Hd. eexists _, _. by apply build_environment_plain. }
  intros lean_config1 w1 Hrun.
  destruct (properties b !! "environments") as [vb|] eqn:Hb;
    destruct (properties d !! "environments") as [vd|] eqn:Hd.
  4: { (* neither configurer touches "environments" *)
    rewrite build_environment_plain in Hrun by done. cbv zeta in Hrun.
    injection Hrun as <- <-.
    rewrite build_environment_plain by done. cbv zeta. simpl.
    rewrite skeleton_with_identifiers_fixed. f_equal. f_equal.
    apply map_eq. intros k. destruct (decide (k = "environments")) as [-> | Hk].
    - by rewrite !lookup_insert_eq.
    - repeat first [ rewrite lookup_insert_ne by done | rewrite lookup_union ].
      by destruct (properties d !! k), (properties b !! k), (lean_config !! k). }
  all: apply build_environment_Ok in Hrun as (cb & wb & Hsb & Hsd).
  all: apply set_environment_item_Ok in Hsb as (envs_b & env_b & Hlb & Heb & -> & ->).
  all: apply set_environment_item_Ok in Hsd as (envs_d & env_d & Hld & Hed & -> & ->).
  all: rewrite ?Hb, ?Hd in *; simpl in *.
  all: apply build_environment_Ok; rewrite ?Hb, ?Hd; simpl.
  - (* both store an entry under "environments" *)
    eexists _, _. split.
    + apply set_environment_item_Ok. eexists envs_b, env_b. split_and!; [| done..].
      erewrite lookup_union_Some_l; [| exact Hb].
      by erewrite lookup_union_Some_l in Hlb; [| exact Hb].
    + apply set_environment_item_Ok. eexists envs_d, env_d. split_and!; [| done | | done].
      * erewrite lookup_union_Some_l; [| exact Hd].
        by erewrite lookup_union_Some_l in Hld; [| exact Hd].
      * symmetry. apply rebuild_same.
  - (* only the brokerage does *)
    eexists _, _. split.
    + apply set_environment_item_Ok. eexists envs_b, env_b. split_and!; [| done..].
      erewrite lookup_union_Some_l; [| exact Hb].
      by erewrite lookup_union_Some_l in Hlb; [| exact Hb].
    + apply set_environment_item_Ok. eexists envs_d, env_d. split_and!; [| done | | done].
      * rewrite lookup_union_r by done. rewrite lookup_insert_eq.
        rewrite lookup_union_r in Hld by done. by rewrite lookup_insert_eq in Hld.
      * symmetry. apply rebuild_same.
  - (* only the data feed does *)
    rewrite lookup_union_r, lookup_insert_eq in Hlb by done.
    injection Hlb as <-. rewrite lookup_singleton_eq in Heb. injection Heb as <-.
    eexists _, _. split.
    + apply set_environment_item_Ok. eexists _, _. split_and!; [| | done..].
      * rewrite lookup_union_r by done. apply lookup_insert_eq.
      * apply lookup_singleton_eq.
    + rewrite insert_insert_eq. rewrite set_environment_skeleton_twice.
      apply set_environment_item_Ok. eexists envs_d, env_d. split_and!; [| done | | done].
      * erewrite lookup_union_Some_l; [| exact Hd].
        by erewrite lookup_union_Some_l in Hld; [| exact Hd].
      * symmetry. apply rebuild_same.
Qed.

(** Scenario A: a configuration without "environments". *)
Example scenario_a :
  ∃ lean_config1 w1 environment,
    build_environment ∅ "lean-cli" paper_trading_brokerage oanda_data_feed world_at_import
    = (Ok lean_config1, w1)
    ∧ environment_of lean_config1 "lean-cli" = Some (VDict environment)
    ∧ environment !! "live-mode" = Some (VBool true)
    ∧ environment !! "live-mode-brokerage" = Some (VStr "PaperTradingBrokerage").
Proof.
  eexists _, _, _. split; [by apply build_environment_plain |].
  split_and!; vm_compute; reflexivity.
Qed.

(** C6 on a configuration file with a backtesting environment, a paper
    trading brokerage and an Oanda data feed. *)
Lemma build_environment_idempotent_witness :
  ∃ lean_config1 w1,
    build_environment backtesting_config "lean-cli" paper_trading_brokerage oanda_data_feed
      world_at_import
    = (Ok lean_config1, w1)
    ∧ build_environment lean_config1 "lean-cli" paper_trading_brokerage oanda_data_feed w1
      = (Ok lean_config1, w1).
Proof.
  destruct (build_environment_idempotent backtesting_config "lean-cli"
              paper_trading_brokerage oanda_data_feed world_at_import) as [Hreturns Hagain].
  destruct Hreturns as (lean_config1 & w1 & Hrun); [vm_compute; reflexivity.. |].
  exists lean_config1, w1. split; [exact Hrun | exact (Hagain _ _ Hrun)].
Defined.

(** C7, as stated, fails: the backtesting environment of the configuration
    file is gone once the "lean-cli" environment has been built; it is gone
    as soon as line 616 has run. *)
Lemma other_environments_discarded :
  ∃ lean_config0 lean_config1 w1,
    environment_of backtesting_config "backtesting" = Some (VDict backtesting_environment)
    ∧ environments_from_skeleton backtesting_config "lean-cli" world_at_import
      = (Ok lean_config0, world_at_import)
    ∧ environment_of lean_config0 "backtesting" = None
    ∧ build_environment backtesting_config "lean-cli" paper_trading_brokerage oanda_data_feed
        world_at_import
      = (Ok lean_config1, w1)
    ∧ environment_of lean_config1 "backtesting" = None.
Proof.
  eexists _, _, _. split_and!.
  - vm_compute; reflexivity.
  - reflexivity.
  - vm_compute; reflexivity.
  - by apply build_environment_plain.
  - vm_compute; reflexivity.
Qed.

(** C7, amended: building the environment [environment_name] replaces the
    whole "environments" mapping of the configuration by a mapping with one
    entry, that environment, which is the skeleton with the identifiers of
    the brokerage and of the data feed written into it; no environment of
    another name is left.  At the root, the entries of the two configurers
    are stored (the data feed's over the brokerage's) and every other key is
    left as it was. *)
Theorem build_environment_replaces_environments (lean_config : gmap string value)
    (environment_name : string) (b d : configurer) (w : world) :
  properties b !! "environments" = None →
  properties d !! "environments" = None →
  ∃ lean_config1 w1,
    build_environment lean_config environment_name b d w = (Ok lean_config1, w1)
    ∧ environment_of lean_config1 environment_name
      = Some (VDict (<["data-queue-handler" := VStr (identifier d)]>
                       (<["live-mode-brokerage" := VStr (identifier b)]>
                          (_environment_skeleton w))))
    ∧ (∀ name, name ≠ environment_name → environment_of lean_config1 name = None)
    ∧ (∀ k, k ≠ "environments" →
            lean_config1 !! k = (properties d ∪ (properties b ∪ lean_config)) !! k)
    ∧ (∀ k, k ≠ "environments" → properties b !! k = None → properties d !! k = None →
            lean_config1 !! k = lean_config !! k).
Proof.
  intros Hb Hd. eexists _, _. split; [by apply build_environment_plain |].
  unfold environment_of. rewrite lookup_insert_eq. split_and!.
  - apply lookup_singleton_eq.
  - intros name Hname. by apply lookup_singleton_ne.
  - intros k Hk. by rewrite lookup_insert_ne.
  - intros k Hk Hbk Hdk. rewrite lookup_insert_ne by done.
    by rewrite !lookup_union_r.
Qed.

(** C7, amended, on the configuration file with a backtesting environment. *)
Lemma build_environment_replaces_environments_witness :
  ∃ lean_config1 w1,
    build_environment backtesting_config "lean-cli" paper_trading_brokerage oanda_data_feed
      world_at_import
    = (Ok lean_config1, w1)
    ∧ (∀ name, name ≠ "lean-cli" → environment_of lean_config1 name = None)
    ∧ lean_config1 !! "data-folder" = Some (VStr "data").
Proof.
  destruct (build_environment_replaces_environments backtesting_config "lean-cli"
              paper_trading_brokerage oanda_data_feed world_at_import)
    as (lean_config1 & w1 & Hrun & _ & Hothers & _ & Hkept); [vm_compute; reflexivity.. |].
  exists lean_config1, w1. split_and!; [done.. |].
  rewrite Hkept; [| done | vm_compute; reflexivity..]. vm_compute; reflexivity.
Defined.

(* ===================================================================== *)
(** ** The cached globals (claim C9)                                      *)
(* ===================================================================== *)

Lemma budget_ret {A} (a : A) : within_fetch_budget (mret a).
Proof. intros w. simpl. split_and!; try done; [destruct (_cached_organizations w) |]; lia. Qed.

Lemma budget_lift {A} (r : result A) : within_fetch_budget (lift r).
Proof. intros w. simpl. split_and!; try done; [destruct (_cached_organizations w) |]; lia. Qed.

Lemma budget_bind {A B} (m : M A) (f : A → M B) :
  within_fetch_budget m → (∀ a, within_fetch_budget (f a)) →
  within_fetch_budget (m ≫= f).
Proof.
  intros Hm Hf w. specialize (Hm w).
  unfold mbind, M_bind. destruct (m w) as [[a | e] w1] eqn:Hmw; simpl in *.
  - specialize (Hf a w1). destruct (f a w1) as [r2 w2]; simpl in *.
    destruct Hm as (Hm1 & Hm2 & Hm3 & Hm4 & Hm5).
    destruct Hf as (Hf1 & Hf2 & Hf3 & Hf4 & Hf5).
    split_and!; [congruence | lia | | | auto].
    + destruct (_cached_organizations w) as [o|] eqn:Ho.
      * assert (is_Some (_cached_organizations w1)) as [o1 Ho1] by eauto.
        rewrite Ho1 in Hf3. lia.
      * destruct (_cached_organizations w1) as [o1|] eqn:Ho1; [lia |].
        destruct (decide (get_all_calls w < get_all_calls w1)) as [Hlt1 | Hge1]; [| lia].
        destruct Hm4 as [? [=]]; eauto.
    + intros Hlt Hok.
      destruct (decide (get_all_calls w < get_all_calls w1)) as [Hlt1 | Hge1].
      * apply Hf5, Hm4; eauto.
      * apply Hf4; [lia | done].
  - destruct Hm as (Hm1 & Hm2 & Hm3 & Hm4 & Hm5).
    split_and!; try done. intros _ [a [=]].
Qed.

Lemma budget_get_organization_id (c : container) (given_input : option string) :
  within_fetch_budget (_get_organization_id c given_input).
Proof.
  intros w. unfold _get_organization_id.
  destruct (_cached_organizations w) as [organizations|] eqn:Ho.
  - destruct (List.find _ organizations); simpl; rewrite Ho; split_and!; eauto; lia.
  - destruct (organizations_get_all c (get_all_calls w)) as [organizations | e]; simpl.
    + destruct (List.find _ organizations); simpl; split_and!; eauto; lia.
    + split_and!; try done; try lia. intros _ [a [=]].
Qed.

Lemma budget_get_organization_ids (c : container) (inputs : list (option string)) :
  within_fetch_budget (get_organization_ids c inputs).
Proof.
  induction inputs as [|given_input inputs IH]; simpl.
  - apply budget_ret.
  - apply budget_bind; [apply budget_get_organization_id |]. intros organization_id.
    apply budget_bind; [apply IH |]. intros organization_ids. apply budget_ret.
Qed.

Lemma budget_set_environment_item (shared : bool) (lean_config : gmap string value)
    (environment_name key : string) (v : value) :
  within_fetch_budget (set_environment_item shared lean_config environment_name key v).
Proof.
  intros w. unfold set_environment_item.
  destruct (_ ≫= _) as [[[] []] | e]; destruct shared; simpl;
    split_and!; try done; try lia; destruct (_cached_organizations w); lia.
Qed.

Lemma budget_configure (identifier_key : string) (cf : configurer) (shared : bool)
    (lean_config : gmap string value) (environment_name : string) :
  within_fetch_budget (configure identifier_key cf shared lean_config environment_name).
Proof.
  unfold configure. apply budget_bind; [apply budget_set_environment_item |].
  intros ?. apply budget_ret.
Qed.

Lemma budget_environments_from_skeleton (lean_config : gmap string value)
    (environment_name : string) :
  within_fetch_budget (environments_from_skeleton lean_config environment_name).
Proof.
  intros w. simpl. split_and!; try done; [destruct (_cached_organizations w) |]; lia.
Qed.

Create HintDb budget.
#[local] Hint Resolve budget_ret budget_lift budget_get_organization_id
  budget_set_environment_item budget_configure budget_environments_from_skeleton : budget.

(** Steps through a command, one [bind] at a time. *)
Ltac budget_steps :=
  repeat first
    [ progress eauto with budget
    | apply budget_bind; [| intros ?]
    | match goal with
      | |- within_fetch_budget (match ?x with _ => _ end) => destruct x
      | |- within_fetch_budget (if ?x then _ else _) => destruct x
      | |- within_fetch_budget (let '(_, _) := ?x in _) => destruct x
      end ].

Lemma budget_build_environment (lean_config : gmap string value) (environment_name : string)
    (b d : configurer) :
  within_fetch_budget (build_environment lean_config environment_name b d).
Proof. unfold build_environment. budget_steps. Qed.

Lemma budget_live_body (c : container) (lib : local_brokerages) (args : live_args) :
  within_fetch_budget (live_body c lib args).
Proof.
  unfold live_body, _configure_lean_config_interactively, build_environment,
    make_brokerage_configurer, make_data_feed_configurer.
  budget_steps.
Qed.

(** The world in which [live_body] starts. *)
Lemma live_resets (c : container) (lib : local_brokerages) (args : live_args) (w : world) :
  live c lib args w
  = live_body c lib args (set_cached_lean_config None (set_cached_organizations None w)).
Proof. done. Qed.

(** Any number of resolutions in a row fetch the organizations at most once,
    and not at all when the list is cached. *)
Lemma resolutions_fetch_once (c : container) (inputs : list (option string)) (w : world) :
  get_all_calls (get_organization_ids c inputs w).2
  ≤ get_all_calls w + match _cached_organizations w with Some _ => 0 | None => 1 end.
Proof. apply (budget_get_organization_ids c inputs w). Qed.

(** The body of [live] fetches the organizations at most once, whatever was
    cached when it was called. *)
Lemma live_fetches_once (c : container) (lib : local_brokerages) (args : live_args)
    (w : world) :
  get_all_calls w ≤ get_all_calls (live c lib args w).2 ≤ get_all_calls w + 1.
Proof.
  rewrite live_resets.
  destruct (budget_live_body c lib args
              (set_cached_lean_config None (set_cached_organizations None w)))
    as (_ & Hge & Hle & _).
  simpl in *. lia.
Qed.

(** An option default of [live] is a call of [_get_default_value]. *)
Lemma live_params_default (c : container) (p : Click.parameter) :
  p ∈ live_params c →
  Click.param_default p = Click.NoDefault
  ∨ (∃ v, Click.param_default p = Click.Constant v)
  ∨ (∃ key, Click.param_default p = Click.Callable (_get_default_value c key)).
Proof.
  unfold live_params. intros Hp.
  repeat (apply elem_of_cons in Hp as [-> | Hp]; [simpl; by eauto |]).
  by apply elem_of_nil in Hp.
Qed.

(** [_get_default_value] leaves the organizations alone. *)
Lemma get_default_value_organizations (c : container) (key : string) (w : world) :
  get_all_calls (_get_default_value c key w).2 = get_all_calls w
  ∧ _cached_organizations (_get_default_value c key w).2 = _cached_organizations w.
Proof.
  unfold _get_default_value.
  destruct (_cached_lean_config w) as [lean_config|].
  - destruct (lean_config !! key) as [v|]; [| done].
    destruct (eq_str v EmptyString); [done |].
    destruct (String.eqb key "iqfeed-iqconnect"); [| done]. by destruct v.
  - destruct (get_lean_config c) as [lean_config | e]; [| done].
    destruct (lean_config !! key) as [v|]; [| done].
    destruct (eq_str v EmptyString); [done |].
    destruct (String.eqb key "iqfeed-iqconnect"); [| done]. by destruct v.
Qed.

(** With the configuration cached, [_get_default_value] does not read the
    configuration file: it answers from the cache, whatever the file holds by
    then, and keeps the cache. *)
Lemma get_default_value_cached (c c' : container) (key : string) (w : world)
    (lean_config : gmap string value) :
  _cached_lean_config w = Some lean_config →
  is_file c = is_file c' →
  _get_default_value c key w = _get_default_value c' key w
  ∧ (_get_default_value c key w).2 = w.
Proof.
  intros Hcached Hfile. unfold _get_default_value. rewrite Hcached, Hfile.
  destruct (lean_config !! key) as [v|]; [| done].
  destruct (eq_str v EmptyString); [done |].
  destruct (String.eqb key "iqfeed-iqconnect"); [| done]. by destruct v.
Qed.

(** The processing of the parameters of [live] fetches no organizations. *)
Lemma process_params_organizations (c : container) (convert : string → value → option value)
    (ps : list (Click.parameter * option value)) (params : gmap string value) (w : world) :
  Forall (λ pg, pg.1 ∈ live_params c) ps →
  get_all_calls (Click.process_params convert ps params w).2 = get_all_calls w
  ∧ _cached_organizations (Click.process_params convert ps params w).2
    = _cached_organizations w.
Proof.
  intros Hps. revert params w.
  induction Hps as [|[p given] ps Hp Hps IH]; intros params w; [done |].
  simpl in Hp |- *.
  assert (∃ r w', match given with
                  | Some v => (Ok v, w)
                  | None =>
                      match Click.param_default p with
                      | Click.NoDefault => (Ok VNone, w)
                      | Click.Constant v => (Ok v, w)
                      | Click.Callable f => f w
                      end
                  end = (r, w')
                  ∧ get_all_calls w' = get_all_calls w
                  ∧ _cached_organizations w' = _cached_organizations w)
    as (r & w' & -> & Hcalls & Hcached).
  { destruct given as [v|]; [by eauto |].
    destruct (live_params_default c p Hp) as [-> | [[v ->] | [key ->]]]; [by eauto.. |].
    destruct (get_default_value_organizations c key w) as [? ?].
    destruct (_get_default_value c key w) as [r w'] eqn:Hd. by eauto. }
  destruct r as [v | e]; [| done].
  destruct (convert (Click.param_name p) v) as [v'|]; [| done].
  destruct (IH (<[Click.param_name p := v']> params) w') as [-> ->]. done.
Qed.

(** What [LeanCommand.invoke] leaves behind is what the callback leaves
    behind, or the world as it was when the callback is not reached. *)
Lemma invoke_world (self : Click.LeanCommand) (h : Click.host) (callback : M unit)
    (w : world) :
  (Click.invoke self h callback w).2 = w
  ∨ (Click.invoke self h callback w).2 = (callback w).2.
Proof.
  assert ((Click.run_callback h callback w).2 = w
          ∨ (Click.run_callback h callback w).2 = (callback w).2) as Hrun.
  { unfold Click.run_callback. destruct (Click.show_announcements h); [| by left].
    destruct (callback w) as [[[] | e] w']; [| by right].
    destruct (Click.warn_if_cli_outdated h); by right. }
  unfold Click.invoke.
  repeat match goal with
         | |- context [if ?b then _ else _] => destruct b; try (by left); try done
         end.
Qed.

(** Within one invocation of the command the organizations are fetched at
    most once: no fetch while the parameters are processed, none by
    [LeanCommand.invoke], and the body resets the list before it resolves
    anything. *)
Lemma invocation_fetches_once (c : container) (lib : local_brokerages) (h : Click.host)
    (cl : Click.command_line) (w : world) :
  Forall (λ pg, pg.1 ∈ live_params c) (Click.processed cl) →
  get_all_calls w ≤ get_all_calls (invocation c lib h cl w).2 ≤ get_all_calls w + 1.
Proof.
  intros Hps. unfold invocation, Click.main, Click.parse_args.
  destruct (process_params_organizations c (Click.convert cl) (Click.processed cl) ∅ w Hps)
    as [Hcalls _].
  destruct (Click.process_params _ _ _ w) as [[params | param v | e] w']; simpl in *;
    [| lia..].
  destruct (invoke_world live_command h (call_live c lib params) w') as [-> | ->]; [lia |].
  unfold call_live. destruct (bind_arguments params) as [args|]; simpl; [| lia].
  pose proof (live_fetches_once c lib args w'). lia.
Qed.

(** Closes an equation between closed terms by evaluating both sides in the
    kernel's virtual machine, without building their normal forms. *)
Ltac by_evaluation :=
  match goal with
  | |- _ = ?y => vm_cast_no_check (@eq_refl _ y)
  end.

(** C9, the failing input: two invocations of [lean live Project --environment
    live] in one test session.  The configuration file has a mistyped
    Bloomberg port at the first: the defaults are read from the file, which is
    cached, click refuses the default of [--bloomberg-server-port], and the
    invocation ends before the body of [live] and its reset are reached.  The
    user corrects the file; the second invocation still answers from the cached
    configuration, is refused for a value that the file no longer holds, and
    leaves the cache as it found it.  In a process of its own the second
    invocation runs the command. *)
Theorem stale_lean_config_survives_aborted_invocation :
  let first :=
    invocation (container_reading mistyped_lean_config) example_local_brokerages pytest_host
      (live_environment_command_line (container_reading mistyped_lean_config))
      world_at_import in
  let second :=
    invocation (container_reading corrected_lean_config) example_local_brokerages pytest_host
      (live_environment_command_line (container_reading corrected_lean_config))
      first.2 in
  let alone :=
    invocation (container_reading corrected_lean_config) example_local_brokerages pytest_host
      (live_environment_command_line (container_reading corrected_lean_config))
      world_at_import in
  first.1 = Click.UsageError "bloomberg_server_port" (VStr "abc")
  ∧ _cached_lean_config first.2 = Some mistyped_lean_config
  ∧ second.1 = Click.UsageError "bloomberg_server_port" (VStr "abc")
  ∧ _cached_lean_config second.2 = Some mistyped_lean_config
  ∧ corrected_lean_config !! "bloomberg-server-port" = Some (VInt 8194)
  ∧ alone.1 = Click.Returned
  ∧ _cached_lean_config alone.2 = None.
Proof. intros first second alone. split_and!; by_evaluation. Qed.

(** The same defect when the invocation is stopped by [LeanCommand.invoke]:
    in a long-lived process with the Snap version of Docker the first
    invocation raises after the defaults were read.  Docker is installed
    anew and the account in the configuration file is changed; the next
    invocation passes the account of the old file to the command. *)
Example stale_default_reaches_the_command :
  let old_file := lean_config_file "001-001-1234567-001" (VInt 8194) in
  let first :=
    invocation (container_reading old_file) example_local_brokerages
      (server_host "/snap/bin/docker")
      (live_environment_command_line (container_reading old_file)) world_at_import in
  let second :=
    Click.parse_args (live_environment_command_line (container_reading corrected_lean_config))
      first.2 in
  first.1 = Click.Raised Click.snap_docker_error
  ∧ _cached_lean_config first.2 = Some old_file
  ∧ match second.1 with
    | Click.Parsed params => params !! "oanda_account_id"
    | _ => None
    end = Some (VStr "001-001-1234567-001")
  ∧ corrected_lean_config !! "oanda-account-id" = Some (VStr "001-001-7654321-001").
Proof. intros old_file first second. split_and!; by_evaluation. Qed.

(** A run with Bloomberg as brokerage and as data feed resolves the
    organization twice and fetches the list once; the run ends in the
    validator, which misses the Bloomberg properties that the example classes
    do not store. *)
Example bloomberg_run :
  let '(r, w) := live example_container example_local_brokerages bloomberg_args world_at_import in
  get_all_calls w = 1
  ∧ _cached_lean_config w = None
  ∧ r = Raise (MissingPropertiesError
                 {[ "bloomberg-api-type"; "bloomberg-environment"; "bloomberg-server-host";
                    "bloomberg-server-port"; "bloomberg-emsx-broker" ]} "lean.json").
Proof. vm_compute. split_and!; reflexivity. Qed.

(** The environment that [live] builds is the skeleton object itself: after
    the run above the module-level dictionary holds both identifiers. *)
Example skeleton_object_is_shared :
  let '(_, w) := live example_container example_local_brokerages bloomberg_args world_at_import in
  _environment_skeleton w !! "live-mode-brokerage" = Some (VStr "BloombergBrokerage")
  ∧ _environment_skeleton w !! "data-queue-handler" = Some (VStr "BloombergBrokerage").
Proof. vm_compute. split; reflexivity. Qed.
